(** * Financial formula catalogue and unit conversion: a shallow embedding

    The Python sources are [financial_formulas.py] (a flat catalogue of
    pure numeric functions) and [input.py] (the data-entry script, of
    which only [convert_units] and its factor table are modelled).

    Number model.  Python's numbers ([int] and binary64 [float]) are
    idealised as the real numbers [R]: rounding, infinities and NaN are
    outside the model.  Everything else follows the code: every [/] is
    the partial division of Python (it raises [ZeroDivisionError] on a
    zero divisor), every [raise ValueError(msg)] keeps its message,
    [math.sqrt] raises its own [ValueError] on a negative argument, the
    power operator follows [float.__pow__], list indexing raises
    [IndexError] out of range and a dictionary lookup raises [KeyError]
    on a missing key.  Exceptions are threaded through an error monad,
    in source order.  Parameters with a default value are explicit
    arguments here.

    Statements that are exact only in real arithmetic say so.  Where the
    difference decides a claim, the code is read a second time over
    binary64 floats (module [Binary64]) and evaluated there. *)

From Stdlib Require Import Floats.
From Stdlib Require Import Reals Lra Lia List String ZArith Bool.
Import ListNotations.
Open Scope R_scope.

(** ** Python run-time fragment *)

(** The exception classes the modelled code can raise. *)
Inductive exn : Type :=
| ValueError (msg : string)
| ZeroDivisionError
| IndexError
| KeyError (key : string).

Inductive result (A : Type) : Type :=
| Ok (a : A)
| Err (e : exn).
Arguments Ok {A} a.
Arguments Err {A} e.

Definition ret {A : Type} (a : A) : result A := Ok a.

Definition raise {A : Type} (e : exn) : result A := Err e.

Definition bind {A B : Type} (m : result A) (k : A -> result B) : result B :=
  match m with
  | Ok a => k a
  | Err e => Err e
  end.

Declare Scope py_scope.
Delimit Scope py_scope with py.
Notation "x <- m ;; k" := (bind m (fun x => k))
  (at level 61, m at next level, right associativity) : py_scope.
Open Scope py_scope.

(** Comparisons of numbers, as booleans. *)
Definition py_eq (a b : R) : bool := if Req_dec_T a b then true else false.

Definition py_lt (a b : R) : bool := if Rlt_dec a b then true else false.

Definition py_le (a b : R) : bool := if Rle_dec a b then true else false.

Definition py_gt (a b : R) : bool := py_lt b a.

(** [a / b]. *)
Definition py_div (a b : R) : result R :=
  if py_eq b 0 then raise ZeroDivisionError else ret (a / b).

(** [sum(xs)]: left-to-right accumulation from [0]. *)
Definition py_sum (xs : list R) : R := fold_left Rplus xs 0.

(** [sum(f(x) for x in xs)] when the body [f] may raise: the elements
    are produced and added one at a time. *)
Fixpoint py_sum_gen {A : Type} (f : A -> result R) (xs : list A) (acc : R) : result R :=
  match xs with
  | [] => ret acc
  | x :: xs' => v <- f x ;; py_sum_gen f xs' (acc + v)
  end.

(** [len(xs)], a Python [int]. *)
Definition len {A : Type} (xs : list A) : Z := Z.of_nat (List.length xs).

(** [range(len(xs))], as list positions. *)
Definition range_len {A : Type} (xs : list A) : list nat := seq 0 (List.length xs).

(** [xs[i]] for a position [i >= 0]. *)
Definition py_getitem (xs : list R) (i : nat) : result R :=
  match nth_error xs i with
  | Some v => ret v
  | None => raise IndexError
  end.

(** [min(a, b)]: the second argument only when it is strictly smaller. *)
Definition py_min (a b : R) : R := if py_lt b a then b else a.

(** [x ** 2]: an integral exponent, total on the reals. *)
Definition py_sq (x : R) : R := x ^ 2.

(** [x ** n] for an [int] exponent [n]: zero to a negative power raises,
    and a negative base stays real. *)
Definition py_pow_int (x : R) (n : Z) : result R :=
  if py_eq x 0 && (n <? 0)%Z then raise ZeroDivisionError else ret (powerRZ x n).

(** [math.log(x)]. *)
Definition math_log (x : R) : result R :=
  if py_le x 0 then raise (ValueError "math domain error") else ret (ln x).

(** [math.sqrt(x)]. *)
Definition math_sqrt (x : R) : result R :=
  if py_lt x 0 then raise (ValueError "math domain error") else ret (sqrt x).

(** A numeric result: [float ** float] leaves the reals on a negative
    base with a fractional exponent. *)
Inductive num : Type :=
| Float (r : R)
| Complex (re im : R).

Definition is_integral (y : R) : bool := py_eq y (IZR (Int_part y)).

(** [x ** y] for real operands, after [float.__pow__]: zero to a
    negative power raises; a negative base with a non-integral exponent
    is handed to complex exponentiation, which works in polar form with
    argument [PI]. *)
Definition py_pow (x y : R) : result num :=
  if py_eq x 0 then
    if py_lt y 0 then raise ZeroDivisionError
    else if py_eq y 0 then ret (Float 1)
    else ret (Float 0)
  else if py_lt 0 x then ret (Float (Rpower x y))
  else if is_integral y then ret (Float (powerRZ x (Int_part y)))
  else ret (Complex (Rpower (- x) y * cos (PI * y)) (Rpower (- x) y * sin (PI * y))).

(** [z - c] and [z * c] for a real [c]. *)
Definition num_sub (z : num) (c : R) : num :=
  match z with
  | Float r => Float (r - c)
  | Complex re im => Complex (re - c) im
  end.

Definition num_mul (z : num) (c : R) : num :=
  match z with
  | Float r => Float (r * c)
  | Complex re im => Complex (re * c) (im * c)
  end.

(** ** [financial_formulas.py]

    The guarded formulas, in source order. *)

(** *** 1. VALUATION RATIOS *)

Definition price_to_earnings_ratio (market_price_per_share eps : R) : result R :=
  if py_eq eps 0 then raise (ValueError "EPS cannot be zero")
  else py_div market_price_per_share eps.


Definition price_to_book_ratio
    (market_price_per_share book_value_per_share : R) : result R :=
  if py_eq book_value_per_share 0 then
    raise (ValueError "Book Value Per Share cannot be zero")
  else py_div market_price_per_share book_value_per_share.

Definition book_value_per_share (total_equity shares_outstanding : R) : result R :=
  if py_eq shares_outstanding 0 then raise (ValueError "Shares Outstanding cannot be zero")
  else py_div total_equity shares_outstanding.














(** *** 2. PROFITABILITY METRICS *)




Definition operating_margin (operating_income total_revenue : R) : result R :=
  if py_eq total_revenue 0 then raise (ValueError "Total Revenue cannot be zero")
  else
    q <- py_div operating_income total_revenue ;;
    ret (q * 100).

Definition net_profit_margin (net_income total_revenue : R) : result R :=
  if py_eq total_revenue 0 then raise (ValueError "Total Revenue cannot be zero")
  else
    q <- py_div net_income total_revenue ;;
    ret (q * 100).



Definition return_on_equity (net_income average_shareholders_equity : R) : result R :=
  if py_eq average_shareholders_equity 0 then
    raise (ValueError "Average Shareholders' Equity cannot be zero")
  else
    q <- py_div net_income average_shareholders_equity ;;
    ret (q * 100).









(** *** 3. CASH FLOW METRICS *)







(** *** 4. LIQUIDITY METRICS *)









(** *** 5. LEVERAGE/SOLVENCY METRICS *)






Definition equity_multiplier (total_assets total_shareholders_equity : R) : result R :=
  if py_eq total_shareholders_equity 0 then
    raise (ValueError "Total Shareholders' Equity cannot be zero")
  else py_div total_assets total_shareholders_equity.










(** *** 6. EFFICIENCY/ACTIVITY METRICS *)


Definition inventory_turnover_ratio (cogs average_inventory : R) : result R :=
  if py_eq average_inventory 0 then raise (ValueError "Average Inventory cannot be zero")
  else py_div cogs average_inventory.


Definition receivables_turnover_ratio
    (net_credit_sales average_accounts_receivable : R) : result R :=
  if py_eq average_accounts_receivable 0 then
    raise (ValueError "Average Accounts Receivable cannot be zero")
  else py_div net_credit_sales average_accounts_receivable.

Definition days_sales_outstanding (accounts_receivable total_credit_sales : R) : result R :=
  if py_eq total_credit_sales 0 then raise (ValueError "Total Credit Sales cannot be zero")
  else
    q <- py_div accounts_receivable total_credit_sales ;;
    ret (q * 365).

Definition days_sales_outstanding_alt (receivables_turnover : R) : result R :=
  if py_eq receivables_turnover 0 then
    raise (ValueError "Receivables Turnover cannot be zero")
  else py_div 365 receivables_turnover.

Definition days_inventory_outstanding (average_inventory cogs : R) : result R :=
  if py_eq cogs 0 then raise (ValueError "COGS cannot be zero")
  else
    q <- py_div average_inventory cogs ;;
    ret (q * 365).

Definition days_inventory_outstanding_alt (inventory_turnover : R) : result R :=
  if py_eq inventory_turnover 0 then raise (ValueError "Inventory Turnover cannot be zero")
  else py_div 365 inventory_turnover.

Definition days_payable_outstanding (accounts_payable cogs : R) : result R :=
  if py_eq cogs 0 then raise (ValueError "COGS cannot be zero")
  else
    q <- py_div accounts_payable cogs ;;
    ret (q * 365).

Definition days_payable_outstanding_alt (payables_turnover : R) : result R :=
  if py_eq payables_turnover 0 then raise (ValueError "Payables Turnover cannot be zero")
  else py_div 365 payables_turnover.

Definition payables_turnover_ratio (cogs average_accounts_payable : R) : result R :=
  if py_eq average_accounts_payable 0 then
    raise (ValueError "Average Accounts Payable cannot be zero")
  else py_div cogs average_accounts_payable.







(** *** 7. GROWTH METRICS *)




Definition compound_annual_growth_rate
    (ending_value beginning_value number_of_years : R) : result num :=
  if py_eq beginning_value 0 then raise (ValueError "Beginning Value cannot be zero")
  else if py_eq number_of_years 0 then raise (ValueError "Number of Years cannot be zero")
  else
    ratio <- py_div ending_value beginning_value ;;
    exponent <- py_div 1 number_of_years ;;
    p <- py_pow ratio exponent ;;
    ret (num_mul (num_sub p 1) 100).






(** *** 8. MARKET METRICS *)





(** *** 9. DIVIDEND METRICS *)









(** *** 10. DUPONT ANALYSIS COMPONENTS *)

Definition dupont_roe_3_step (net_profit_margin asset_turnover equity_multiplier : R) : R :=
  net_profit_margin * asset_turnover * equity_multiplier.

Definition dupont_roe_3_step_detailed
    (net_income revenue total_assets equity : R) : result R :=
  if py_eq revenue 0 || py_eq total_assets 0 || py_eq equity 0 then
    raise (ValueError "Revenue, Total Assets, or Equity cannot be zero")
  else
    q1 <- py_div net_income revenue ;;
    q2 <- py_div revenue total_assets ;;
    q3 <- py_div total_assets equity ;;
    ret (q1 * q2 * q3).

Definition dupont_roe_5_step
    (tax_burden interest_burden ebit_margin asset_turnover equity_multiplier : R) : R :=
  tax_burden * interest_burden * ebit_margin * asset_turnover * equity_multiplier.

Definition tax_burden (net_income pretax_income : R) : result R :=
  if py_eq pretax_income 0 then raise (ValueError "Pretax Income cannot be zero")
  else py_div net_income pretax_income.

Definition interest_burden (pretax_income ebit : R) : result R :=
  if py_eq ebit 0 then raise (ValueError "EBIT cannot be zero")
  else py_div pretax_income ebit.

Definition ebit_margin (ebit revenue : R) : result R :=
  if py_eq revenue 0 then raise (ValueError "Revenue cannot be zero")
  else py_div ebit revenue.

Definition dupont_asset_turnover (revenue total_assets : R) : result R :=
  if py_eq total_assets 0 then raise (ValueError "Total Assets cannot be zero")
  else py_div revenue total_assets.

Definition dupont_equity_multiplier (total_assets shareholders_equity : R) : result R :=
  if py_eq shareholders_equity 0 then
    raise (ValueError "Shareholders' Equity cannot be zero")
  else py_div total_assets shareholders_equity.

(** *** 11. STATISTICAL METRICS *)

Definition sample_variance (data : list R) : result R :=
  if (len data <? 2)%Z then
    raise (ValueError "Need at least 2 data points for sample variance")
  else
    mean <- py_div (py_sum data) (IZR (len data)) ;;
    let sum_squared_diff := py_sum (map (fun x => py_sq (x - mean)) data) in
    py_div sum_squared_diff (IZR (len data - 1)).

Definition population_variance (data : list R) : result R :=
  if (len data =? 0)%Z then raise (ValueError "Data cannot be empty")
  else
    mean <- py_div (py_sum data) (IZR (len data)) ;;
    let sum_squared_diff := py_sum (map (fun x => py_sq (x - mean)) data) in
    py_div sum_squared_diff (IZR (len data)).

Definition sample_standard_deviation (data : list R) : result R :=
  v <- sample_variance data ;; math_sqrt v.

Definition population_standard_deviation (data : list R) : result R :=
  v <- population_variance data ;; math_sqrt v.

Definition sample_covariance (x y : list R) : result R :=
  if negb (len x =? len y)%Z then raise (ValueError "X and Y must have the same length")
  else if (len x <? 2)%Z then raise (ValueError "Need at least 2 data points")
  else
    mean_x <- py_div (py_sum x) (IZR (len x)) ;;
    mean_y <- py_div (py_sum y) (IZR (len y)) ;;
    sum_product <-
      py_sum_gen
        (fun i => xi <- py_getitem x i ;; yi <- py_getitem y i ;;
                  ret ((xi - mean_x) * (yi - mean_y)))
        (range_len x) 0 ;;
    py_div sum_product (IZR (len x - 1)).

Definition population_covariance (x y : list R) : result R :=
  if negb (len x =? len y)%Z then raise (ValueError "X and Y must have the same length")
  else if (len x =? 0)%Z then raise (ValueError "Data cannot be empty")
  else
    mean_x <- py_div (py_sum x) (IZR (len x)) ;;
    mean_y <- py_div (py_sum y) (IZR (len y)) ;;
    sum_product <-
      py_sum_gen
        (fun i => xi <- py_getitem x i ;; yi <- py_getitem y i ;;
                  ret ((xi - mean_x) * (yi - mean_y)))
        (range_len x) 0 ;;
    py_div sum_product (IZR (len x)).

Definition correlation_coefficient (x y : list R) : result R :=
  if negb (len x =? len y)%Z then raise (ValueError "X and Y must have the same length")
  else
    cov <- sample_covariance x y ;;
    std_x <- sample_standard_deviation x ;;
    std_y <- sample_standard_deviation y ;;
    if py_eq std_x 0 || py_eq std_y 0 then
      raise (ValueError "Standard deviation cannot be zero")
    else py_div cov (std_x * std_y).


Definition beta (covariance_ri_rm variance_rm : R) : result R :=
  if py_eq variance_rm 0 then raise (ValueError "Market variance cannot be zero")
  else py_div covariance_ri_rm variance_rm.





(** [mar] defaults to [0.0] in the source. *)
Definition downside_deviation (returns : list R) (mar : R) : result R :=
  if (len returns =? 0)%Z then raise (ValueError "Returns list cannot be empty")
  else
    let downside_squared := py_sum (map (fun r => py_sq (py_min 0 (r - mar))) returns) in
    q <- py_div downside_squared (IZR (len returns)) ;;
    math_sqrt q.


Definition arithmetic_mean (data : list R) : result R :=
  if (len data =? 0)%Z then raise (ValueError "Data cannot be empty")
  else py_div (py_sum data) (IZR (len data)).

Definition weighted_average (values weights : list R) : result R :=
  if negb (len values =? len weights)%Z then
    raise (ValueError "Values and weights must have the same length")
  else if (len values =? 0)%Z then raise (ValueError "Data cannot be empty")
  else
    let weighted_sum := py_sum (map (fun '(v, w) => v * w) (combine values weights)) in
    let total_weight := py_sum weights in
    if py_eq total_weight 0 then raise (ValueError "Total weight cannot be zero")
    else py_div weighted_sum total_weight.

(** The loop [product = 1.0; for r in returns: product *= (1 + r)]. *)
Definition geometric_mean (returns : list R) : result num :=
  if (len returns =? 0)%Z then raise (ValueError "Returns list cannot be empty")
  else
    let product := fold_left (fun product r => product * (1 + r)) returns 1.0 in
    exponent <- py_div 1 (IZR (len returns)) ;;
    p <- py_pow product exponent ;;
    ret (num_sub p 1).

(** *** 12. DCF VALUATION FRAMEWORK *)

(** [preferred_value] and [cost_of_preferred] default to [0] in the
    source. *)
Definition wacc
    (equity_value debt_value cost_of_equity cost_of_debt tax_rate preferred_value
     cost_of_preferred : R) : result R :=
  let total_value := equity_value + debt_value + preferred_value in
  if py_eq total_value 0 then raise (ValueError "Total firm value cannot be zero")
  else
    equity_weight <- py_div equity_value total_value ;;
    debt_weight <- py_div debt_value total_value ;;
    preferred_weight <-
      (if py_gt preferred_value 0 then py_div preferred_value total_value else ret 0) ;;
    let wacc_value :=
      equity_weight * cost_of_equity + debt_weight * cost_of_debt * (1 - tax_rate) in
    let wacc_value :=
      if py_gt preferred_value 0 then wacc_value + preferred_weight * cost_of_preferred
      else wacc_value in
    ret wacc_value.

Definition terminal_value_gordon_growth (fcf_next_year wacc growth_rate : R) : result R :=
  if py_le wacc growth_rate then raise (ValueError "WACC must be greater than growth rate")
  else py_div fcf_next_year (wacc - growth_rate).

(** [period] is an [int] in the source. *)
Definition present_value_cash_flow (cash_flow discount_rate : R) (period : Z) : result R :=
  d <- py_pow_int (1 + discount_rate) period ;;
  py_div cash_flow d.

(** The loop [for i, cf in enumerate(cash_flows, start=1): pv += ...],
    from position [i] with the running total [pv]. *)
Fixpoint present_value_loop (cash_flows : list R) (discount_rate : R) (i : Z) (pv : R)
    : result R :=
  match cash_flows with
  | [] => ret pv
  | cf :: rest =>
      v <- present_value_cash_flow cf discount_rate i ;;
      present_value_loop rest discount_rate (i + 1) (pv + v)
  end.

Definition present_value_cash_flows (cash_flows : list R) (discount_rate : R) : result R :=
  present_value_loop cash_flows discount_rate 1 0.0.


Definition fcfe_terminal_value (fcfe_next_year cost_of_equity growth_rate : R) : result R :=
  if py_le cost_of_equity growth_rate then
    raise (ValueError "Cost of Equity must be greater than growth rate")
  else py_div fcfe_next_year (cost_of_equity - growth_rate).

Definition gordon_growth_model (dividend_next_year cost_of_equity growth_rate : R) : result R :=
  if py_le cost_of_equity growth_rate then
    raise (ValueError "Cost of Equity must be greater than growth rate")
  else py_div dividend_next_year (cost_of_equity - growth_rate).

Definition dividend_next_year (current_dividend growth_rate : R) : R :=
  current_dividend * (1 + growth_rate).

(** The loop [for i, interest in enumerate(interest_payments, start=1)]. *)
Fixpoint pv_tax_shield_loop (interest_payments : list R) (tax_rate cost_of_debt : R)
    (i : Z) (pv : R) : result R :=
  match interest_payments with
  | [] => ret pv
  | interest :: rest =>
      d <- py_pow_int (1 + cost_of_debt) i ;;
      v <- py_div (interest * tax_rate) d ;;
      pv_tax_shield_loop rest tax_rate cost_of_debt (i + 1) (pv + v)
  end.

Definition pv_tax_shield_changing
    (interest_payments : list R) (tax_rate cost_of_debt : R) : result R :=
  pv_tax_shield_loop interest_payments tax_rate cost_of_debt 1 0.0.

(** *** 13. OTHER KEY METRICS *)

Definition altman_z_score
    (working_capital total_assets retained_earnings ebit
     market_value_equity book_value_liabilities sales : R) : result R :=
  A <- py_div working_capital total_assets ;;
  B <- py_div retained_earnings total_assets ;;
  C <- py_div ebit total_assets ;;
  D <- py_div market_value_equity book_value_liabilities ;;
  E <- py_div sales total_assets ;;
  ret (1.2 * A + 1.4 * B + 3.3 * C + 0.6 * D + 1.0 * E).

Definition altman_z_score_private
    (working_capital total_assets retained_earnings ebit
     book_value_equity total_liabilities sales : R) : result R :=
  A <- py_div working_capital total_assets ;;
  B <- py_div retained_earnings total_assets ;;
  C <- py_div ebit total_assets ;;
  D <- py_div book_value_equity total_liabilities ;;
  E <- py_div sales total_assets ;;
  ret (0.717 * A + 0.847 * B + 3.107 * C + 0.420 * D + 0.998 * E).

(** Each [if c: score += 1] of the source. *)
Definition bump (c : bool) (score : Z) : Z := if c then (score + 1)%Z else score.

Definition piotroski_f_score
    (roa_current operating_cf_current roa_previous operating_cf_previous
     net_income_current long_term_debt_current long_term_debt_previous
     current_ratio_current current_ratio_previous shares_current shares_previous
     gross_margin_current gross_margin_previous
     asset_turnover_current asset_turnover_previous : R) : Z :=
  let score := 0%Z in
  let score := bump (py_gt roa_current 0) score in
  let score := bump (py_gt operating_cf_current 0) score in
  let score := bump (py_gt roa_current roa_previous) score in
  let score := bump (py_gt operating_cf_current net_income_current) score in
  let score := bump (py_lt long_term_debt_current long_term_debt_previous) score in
  let score := bump (py_gt current_ratio_current current_ratio_previous) score in
  let score := bump (py_le shares_current shares_previous) score in
  let score := bump (py_gt gross_margin_current gross_margin_previous) score in
  let score := bump (py_gt asset_turnover_current asset_turnover_previous) score in
  score.





(** *** 14. ASWATH DAMODARAN VALUATION FORMULAS *)

Definition cost_of_debt (interest_expense average_debt_outstanding : R) : result R :=
  if py_eq average_debt_outstanding 0 then
    raise (ValueError "Average Debt Outstanding cannot be zero")
  else py_div interest_expense average_debt_outstanding.

Definition levered_beta (unlevered_beta tax_rate debt_to_equity : R) : R :=
  unlevered_beta * (1 + (1 - tax_rate) * debt_to_equity).

Definition unlevered_beta (levered_beta tax_rate debt_to_equity : R) : result R :=
  let denominator := 1 + (1 - tax_rate) * debt_to_equity in
  if py_eq denominator 0 then raise (ValueError "Denominator cannot be zero")
  else py_div levered_beta denominator.


Definition expected_growth_rate_historical
    (ending_value beginning_value n_periods : R) : result num :=
  if py_eq beginning_value 0 then raise (ValueError "Beginning Value cannot be zero")
  else if py_eq n_periods 0 then raise (ValueError "Number of periods cannot be zero")
  else
    ratio <- py_div ending_value beginning_value ;;
    exponent <- py_div 1 n_periods ;;
    p <- py_pow ratio exponent ;;
    ret (num_sub p 1).

Definition reinvestment_rate
    (capex depreciation change_in_wc ebit tax_rate : R) : result R :=
  let numerator := capex - depreciation + change_in_wc in
  let denominator := ebit * (1 - tax_rate) in
  if py_eq denominator 0 then raise (ValueError "EBIT(1-T) cannot be zero")
  else py_div numerator denominator.


Definition justified_pe_stable_growth (payout_ratio growth_rate cost_of_equity : R) : result R :=
  if py_le cost_of_equity growth_rate then
    raise (ValueError "Cost of Equity must be greater than growth rate")
  else py_div (payout_ratio * (1 + growth_rate)) (cost_of_equity - growth_rate).

Definition justified_pb_ratio (roe growth_rate cost_of_equity : R) : result R :=
  if py_le cost_of_equity growth_rate then
    raise (ValueError "Cost of Equity must be greater than growth rate")
  else py_div (roe - growth_rate) (cost_of_equity - growth_rate).

Definition justified_ps_ratio
    (profit_margin payout_ratio growth_rate cost_of_equity : R) : result R :=
  if py_le cost_of_equity growth_rate then
    raise (ValueError "Cost of Equity must be greater than growth rate")
  else py_div (profit_margin * payout_ratio * (1 + growth_rate)) (cost_of_equity - growth_rate).

Definition justified_ev_ebitda (tax_rate reinvestment_rate growth_rate wacc : R) : result R :=
  if py_le wacc growth_rate then raise (ValueError "WACC must be greater than growth rate")
  else py_div ((1 - tax_rate) * (1 - reinvestment_rate) * (1 + growth_rate)) (wacc - growth_rate).

Definition justified_ev_sales
    (operating_margin tax_rate reinvestment_rate growth_rate wacc : R) : result R :=
  if py_le wacc growth_rate then raise (ValueError "WACC must be greater than growth rate")
  else py_div (operating_margin * (1 - tax_rate) * (1 - reinvestment_rate) * (1 + growth_rate))
              (wacc - growth_rate).


(** The normal distribution comes from outside the module: [scipy] when
    it can be imported, [math.erf] otherwise. *)
Section NormalDistribution.

Variable SCIPY_AVAILABLE : bool.
Variable math_erf : R -> R.
Variable stats_norm_cdf : R -> R.

Definition _norm_cdf (x : R) : result R :=
  if negb SCIPY_AVAILABLE then
    s <- math_sqrt 2 ;;
    y <- py_div x s ;;
    ret (0.5 * (1 + math_erf y))
  else ret (stats_norm_cdf x).

(** [math.exp] is total on the reals; [sigma ** 2 / 2] divides by a
    literal. *)
Definition black_scholes_call (s0 k r t sigma : R) : result R :=
  q <- py_div s0 k ;;
  l <- math_log q ;;
  st <- math_sqrt t ;;
  d1 <- py_div (l + (r + py_sq sigma / 2) * t) (sigma * st) ;;
  st' <- math_sqrt t ;;
  let d2 := d1 - sigma * st' in
  n_d1 <- _norm_cdf d1 ;;
  n_d2 <- _norm_cdf d2 ;;
  ret (s0 * n_d1 - k * exp (- r * t) * n_d2).

Definition black_scholes_put (s0 k r t sigma : R) : result R :=
  q <- py_div s0 k ;;
  l <- math_log q ;;
  st <- math_sqrt t ;;
  d1 <- py_div (l + (r + py_sq sigma / 2) * t) (sigma * st) ;;
  st' <- math_sqrt t ;;
  let d2 := d1 - sigma * st' in
  n_neg_d1 <- _norm_cdf (- d1) ;;
  n_neg_d2 <- _norm_cdf (- d2) ;;
  ret (k * exp (- r * t) * n_neg_d2 - s0 * n_neg_d1).

End NormalDistribution.

(** *** 15. BENJAMIN GRAHAM FORMULAS *)

Definition graham_number (eps bvps : R) : result R :=
  math_sqrt (22.5 * eps * bvps).


Definition ncav_per_share
    (current_assets total_liabilities shares_outstanding : R) : result R :=
  if py_eq shares_outstanding 0 then raise (ValueError "Shares Outstanding cannot be zero")
  else py_div (current_assets - total_liabilities) shares_outstanding.

(** [2 / 3] divides two literals and cannot raise. *)
Definition graham_ncav_buy_rule (stock_price ncav_per_share : R) : bool :=
  py_lt stock_price (2 / 3 * ncav_per_share).

Definition graham_ncav_buy_rule_conservative (stock_price ncav_per_share : R) : bool :=
  py_lt stock_price (0.5 * ncav_per_share).


Definition margin_of_safety (intrinsic_value market_price : R) : result R :=
  if py_eq intrinsic_value 0 then raise (ValueError "Intrinsic Value cannot be zero")
  else
    q <- py_div (intrinsic_value - market_price) intrinsic_value ;;
    ret (q * 100).

Definition graham_minimum_mos_33 (market_price intrinsic_value : R) : bool :=
  py_le market_price (0.67 * intrinsic_value).

Definition graham_minimum_mos_50 (market_price intrinsic_value : R) : bool :=
  py_le market_price (0.50 * intrinsic_value).



(** *** 16. MODERN VALUE INVESTING ADDITIONS *)












(** [math.exp] is total on the reals. *)
Definition probability_of_bankruptcy (ohlson_o_score : R) : result R :=
  py_div 1 (1 + exp (- ohlson_o_score)).






(** ** [input.py] *)

(** The dictionary [CONVERSION_FACTORS], in source order. *)
Definition CONVERSION_FACTORS : list (string * Z) :=
  [ ("thousand"%string, 1000%Z); ("lakhs"%string, 100000%Z);
    ("million"%string, 1000000%Z); ("cr"%string, 10000000%Z);
    ("billion"%string, 1000000000%Z) ].



(** [d[key]] on a dictionary with string keys. *)
Fixpoint dict_get (d : list (string * Z)) (key : string) : result Z :=
  match d with
  | [] => raise (KeyError key)
  | (k, v) :: d' => if String.eqb k key then ret v else dict_get d' key
  end.


Definition convert_units (value : R) (from_unit to_unit : string) : result R :=
  if String.eqb from_unit to_unit then ret value
  else
    f <- dict_get CONVERSION_FACTORS from_unit ;;
    let absolute_value := value * IZR f in
    t <- dict_get CONVERSION_FACTORS to_unit ;;
    py_div absolute_value (IZR t).

(** ** The correlation coefficient over binary64 floats

    The same source functions, read with Python's [float] as the IEEE
    754 binary64 numbers.  [sum] is modelled as plain left-to-right
    addition (recent CPython compensates the rounding errors of the
    additions, which changes nothing where every partial sum is exact),
    and [x ** 2] as the rounded product [x * x] (which is what the
    platform's [pow] returns whenever the square is exact).  Over the
    reals [sqrt v * sqrt v = v]; here the product is rounded. *)

Module Binary64.

(** [float(n)] for an [int] [0 <= n < 2^63]. *)
Definition py_float (n : Z) : float := PrimFloat.of_uint63 (Uint63.of_Z n).

Definition py_div (a b : float) : result float :=
  if PrimFloat.eqb b 0 then raise ZeroDivisionError else ret (PrimFloat.div a b).

Definition py_sum (xs : list float) : float := fold_left PrimFloat.add xs 0%float.

Fixpoint py_sum_gen {A : Type} (f : A -> result float) (xs : list A) (acc : float)
  : result float :=
  match xs with
  | [] => ret acc
  | x :: xs' => v <- f x ;; py_sum_gen f xs' (PrimFloat.add acc v)
  end.

Definition py_getitem (xs : list float) (i : nat) : result float :=
  match nth_error xs i with
  | Some v => ret v
  | None => raise IndexError
  end.

Definition py_sq (x : float) : float := PrimFloat.mul x x.

Definition math_sqrt (x : float) : result float :=
  if PrimFloat.ltb x 0 then raise (ValueError "math domain error")
  else ret (PrimFloat.sqrt x).

Definition sample_variance (data : list float) : result float :=
  if (len data <? 2)%Z then
    raise (ValueError "Need at least 2 data points for sample variance")
  else
    mean <- py_div (py_sum data) (py_float (len data)) ;;
    let sum_squared_diff := py_sum (map (fun x => py_sq (PrimFloat.sub x mean)) data) in
    py_div sum_squared_diff (py_float (len data - 1)).

Definition sample_standard_deviation (data : list float) : result float :=
  v <- sample_variance data ;; math_sqrt v.

Definition sample_covariance (x y : list float) : result float :=
  if negb (len x =? len y)%Z then raise (ValueError "X and Y must have the same length")
  else if (len x <? 2)%Z then raise (ValueError "Need at least 2 data points")
  else
    mean_x <- py_div (py_sum x) (py_float (len x)) ;;
    mean_y <- py_div (py_sum y) (py_float (len y)) ;;
    sum_product <-
      py_sum_gen
        (fun i => xi <- py_getitem x i ;; yi <- py_getitem y i ;;
                  ret (PrimFloat.mul (PrimFloat.sub xi mean_x) (PrimFloat.sub yi mean_y)))
        (range_len x) 0%float ;;
    py_div sum_product (py_float (len x - 1)).

Definition correlation_coefficient (x y : list float) : result float :=
  if negb (len x =? len y)%Z then raise (ValueError "X and Y must have the same length")
  else
    cov <- sample_covariance x y ;;
    std_x <- sample_standard_deviation x ;;
    std_y <- sample_standard_deviation y ;;
    if PrimFloat.eqb std_x 0 || PrimFloat.eqb std_y 0 then
      raise (ValueError "Standard deviation cannot be zero")
    else py_div cov (PrimFloat.mul std_x std_y).

End Binary64.

(** ** Specification-side vocabulary *)

(** The catalogue's single invalid-input error kind: a [ValueError]. *)
Definition invalid_input {A : Type} (out : result A) : Prop :=
  exists msg, out = Err (ValueError msg).




(** The contract of a stable-growth formula: it fails exactly when the
    discount rate does not exceed the growth rate and otherwise returns
    its numerator over the spread. *)
Definition stable_growth_contract (out : result R) (numerator rate growth : R) : Prop :=
  (invalid_input out <-> rate <= growth) /\
  (growth < rate -> out = Ok (numerator / (rate - growth))).

(** The number of tests that pass. *)
Definition passed (tests : list bool) : Z :=
  Z.of_nat (List.length (filter (fun b : bool => b) tests)).

(** The keys of the magnitude table. *)
Definition magnitude_units : list string := map fst CONVERSION_FACTORS.

(** Textbook sums, means and squared deviations. *)
Definition Sigma (xs : list R) : R := fold_right Rplus 0 xs.

Definition mean (xs : list R) : R := Sigma xs / INR (List.length xs).

Definition sq_dev_sum (xs : list R) : R :=
  Sigma (map (fun x => (x - mean xs) ^ 2) xs).

Definition downside_sq_sum (returns : list R) (mar : R) : R :=
  Sigma (map (fun r => (Rmin 0 (r - mar)) ^ 2) returns).

(** The sum of the products of paired deviations from [mx] and [my]. *)
Fixpoint cross_dev_sum (mx my : R) (x y : list R) : R :=
  match x, y with
  | a :: x', b :: y' => (a - mx) * (b - my) + cross_dev_sum mx my x' y'
  | _, _ => 0
  end.

(** The value today of cash flows received at the ends of periods
    [i], [i + 1], ... at the rate [r]. *)
Fixpoint discounted_sum (r : R) (i : nat) (cash_flows : list R) : R :=
  match cash_flows with
  | [] => 0
  | cf :: rest => cf / (1 + r) ^ i + discounted_sum r (S i) rest
  end.

(** The compounded growth factor of a series of returns. *)
Definition gross_product (returns : list R) : R :=
  fold_right (fun r p => (1 + r) * p) 1 returns.

(** ** Facts about the run-time fragment *)

Lemma py_eq_true (a b : R) : a = b -> py_eq a b = true.
Proof. intros H. unfold py_eq. destruct (Req_dec_T a b); [reflexivity | contradiction]. Qed.

Lemma py_eq_false (a b : R) : a <> b -> py_eq a b = false.
Proof. intros H. unfold py_eq. destruct (Req_dec_T a b); [contradiction | reflexivity]. Qed.

Lemma py_lt_true (a b : R) : a < b -> py_lt a b = true.
Proof. intros H. unfold py_lt. destruct (Rlt_dec a b); [reflexivity | contradiction]. Qed.

Lemma py_lt_false (a b : R) : b <= a -> py_lt a b = false.
Proof. intros H. unfold py_lt. destruct (Rlt_dec a b); [lra | reflexivity]. Qed.

Lemma py_le_true (a b : R) : a <= b -> py_le a b = true.
Proof. intros H. unfold py_le. destruct (Rle_dec a b); [reflexivity | contradiction]. Qed.

Lemma py_le_false (a b : R) : b < a -> py_le a b = false.
Proof. intros H. unfold py_le. destruct (Rle_dec a b); [lra | reflexivity]. Qed.

Lemma py_div_ok (a b : R) : b <> 0 -> py_div a b = Ok (a / b).
Proof. intros H. unfold py_div. rewrite (py_eq_false _ _ H). reflexivity. Qed.

Lemma py_div_zero (a : R) : py_div a 0 = Err ZeroDivisionError.
Proof. unfold py_div. rewrite py_eq_true; reflexivity. Qed.

Lemma math_sqrt_ok (x : R) : 0 <= x -> math_sqrt x = Ok (sqrt x).
Proof. intros H. unfold math_sqrt. rewrite (py_lt_false _ _ H). reflexivity. Qed.

Lemma math_sqrt_domain (x : R) : x < 0 -> math_sqrt x = Err (ValueError "math domain error").
Proof. intros H. unfold math_sqrt. rewrite (py_lt_true _ _ H). reflexivity. Qed.

Lemma invalid_input_raise {A : Type} (msg : string) :
  invalid_input (@raise A (ValueError msg)).
Proof. exists msg. reflexivity. Qed.

Lemma invalid_input_not_ok {A : Type} (a : A) : ~ invalid_input (Ok a).
Proof. intros [msg H]. discriminate H. Qed.

Lemma fold_left_Rplus_acc (xs : list R) (a : R) :
  fold_left Rplus xs a = a + Sigma xs.
Proof.
  unfold Sigma. revert a. induction xs as [| x xs IH]; intros a; cbn [fold_left fold_right].
  - lra.
  - rewrite IH. lra.
Qed.

Lemma py_sum_Sigma (xs : list R) : py_sum xs = Sigma xs.
Proof. unfold py_sum. rewrite fold_left_Rplus_acc. apply Rplus_0_l. Qed.

Lemma IZR_len {A : Type} (xs : list A) : IZR (len xs) = INR (List.length xs).
Proof. unfold len. symmetry. apply INR_IZR_INZ. Qed.

Lemma IZR_len_pred {A : Type} (xs : list A) : IZR (len xs - 1) = INR (List.length xs) - 1.
Proof. rewrite minus_IZR, IZR_len. reflexivity. Qed.

Lemma INR_length_pos {A : Type} (xs : list A) : xs <> [] -> 0 < INR (List.length xs).
Proof.
  intros H. destruct xs as [| x xs]; [contradiction |].
  apply lt_0_INR. cbn [List.length]. lia.
Qed.

Lemma Sigma_nonneg (xs : list R) : Forall (fun x => 0 <= x) xs -> 0 <= Sigma xs.
Proof. unfold Sigma. induction 1; cbn [fold_right]; lra. Qed.

Lemma Sigma_squares_nonneg {A : Type} (f : A -> R) (xs : list A) :
  0 <= Sigma (map (fun x => f x ^ 2) xs).
Proof.
  apply Sigma_nonneg, Forall_map, Forall_forall. intros x _. apply pow2_ge_0.
Qed.

Lemma py_min_Rmin (a b : R) : py_min a b = Rmin a b.
Proof.
  unfold py_min, py_lt, Rmin.
  destruct (Rlt_dec b a), (Rle_dec a b); lra.
Qed.

Lemma len_nonempty {A : Type} (xs : list A) : xs <> [] -> (len xs =? 0)%Z = false.
Proof.
  intros H. destruct xs; [contradiction |]. apply Z.eqb_neq. unfold len. cbn [List.length]. lia.
Qed.

(** ** Formulas with a guarded denominator *)





(** ** Altman Z-scores *)

(** C2 (the code at the failing inputs).  Neither Altman function has a
    guard: with [total_assets = 0] the first division raises Python's
    [ZeroDivisionError], and with a non-zero [total_assets] and a zero
    liabilities argument the fourth division does; in no such case is
    the result an invalid-input failure. *)
Theorem altman_zero_denominator :
  forall wc ta re ebit eq liab sales,
    altman_z_score wc 0 re ebit eq liab sales = Err ZeroDivisionError /\
    altman_z_score_private wc 0 re ebit eq liab sales = Err ZeroDivisionError /\
    (ta <> 0 -> altman_z_score wc ta re ebit eq 0 sales = Err ZeroDivisionError) /\
    (ta <> 0 -> altman_z_score_private wc ta re ebit eq 0 sales = Err ZeroDivisionError) /\
    ~ invalid_input (altman_z_score wc 0 re ebit eq liab sales) /\
    ~ invalid_input (altman_z_score_private wc 0 re ebit eq liab sales).
Proof.
  intros. unfold altman_z_score, altman_z_score_private.
  rewrite !py_div_zero. cbn [bind].
  repeat split; try (intros Hta; rewrite !(py_div_ok _ ta Hta); cbn [bind]; reflexivity);
    intros [msg H]; discriminate H.
Qed.

(** ** Piotroski F-score *)

Lemma bump_passed (c : bool) (tests : list bool) :
  bump c (passed tests) = passed (tests ++ [c]).
Proof.
  unfold bump, passed. rewrite filter_app, length_app. cbn [filter].
  destruct c; cbn [List.length]; lia.
Qed.

Lemma passed_bounds (tests : list bool) :
  (0 <= passed tests <= Z.of_nat (List.length tests))%Z.
Proof.
  unfold passed. pose proof (filter_length_le (fun b : bool => b) tests). lia.
Qed.

(** C3.  [piotroski_f_score] returns the number of its nine binary tests
    that pass, hence a value between 0 and 9; it is 9 when all nine
    conditions hold and 0 when none does; the dilution test gives its
    point at [shares_current = shares_previous], and a tie in any other
    improvement test gives none. *)
Theorem piotroski_f_score_counts :
  forall roa ocf roa' ocf' ni ltd ltd' cr cr' sh sh' gm gm' atr atr',
    let score := piotroski_f_score roa ocf roa' ocf' ni ltd ltd' cr cr' sh sh' gm gm' atr atr' in
    score = passed [py_gt roa 0; py_gt ocf 0; py_gt roa roa'; py_gt ocf ni;
                    py_lt ltd ltd'; py_gt cr cr'; py_le sh sh';
                    py_gt gm gm'; py_gt atr atr'] /\
    (0 <= score <= 9)%Z /\
    (roa > 0 /\ ocf > 0 /\ roa > roa' /\ ocf > ni /\ ltd < ltd' /\ cr > cr' /\
     sh <= sh' /\ gm > gm' /\ atr > atr' -> score = 9%Z) /\
    (~ roa > 0 /\ ~ ocf > 0 /\ ~ roa > roa' /\ ~ ocf > ni /\ ~ ltd < ltd' /\ ~ cr > cr' /\
     ~ sh <= sh' /\ ~ gm > gm' /\ ~ atr > atr' -> score = 0%Z) /\
    (sh = sh' ->
     score = (passed [py_gt roa 0; py_gt ocf 0; py_gt roa roa'; py_gt ocf ni;
                      py_lt ltd ltd'; py_gt cr cr'; py_gt gm gm'; py_gt atr atr'] + 1)%Z) /\
    (roa = roa' /\ ltd = ltd' /\ cr = cr' /\ gm = gm' /\ atr = atr' ->
     score = passed [py_gt roa 0; py_gt ocf 0; py_gt ocf ni; py_le sh sh']).
Proof.
  intros. unfold py_gt in *.
  assert (Hcount : score = passed [py_lt 0 roa; py_lt 0 ocf; py_lt roa' roa; py_lt ni ocf;
                    py_lt ltd ltd'; py_lt cr' cr; py_le sh sh';
                    py_lt gm' gm; py_lt atr' atr]).
  { subst score. unfold piotroski_f_score, py_gt. cbv zeta.
    change 0%Z with (passed []). rewrite !bump_passed. reflexivity. }
  split; [exact Hcount |]. split.
  { rewrite Hcount. match goal with |- (_ <= passed ?l <= _)%Z =>
      pose proof (passed_bounds l) as Hb; cbn [List.length] in Hb end. lia. }
  rewrite Hcount. repeat split.
  - intros (H1 & H2 & H3 & H4 & H5 & H6 & H7 & H8 & H9).
    rewrite !py_lt_true, py_le_true by lra. reflexivity.
  - intros (H1 & H2 & H3 & H4 & H5 & H6 & H7 & H8 & H9).
    rewrite !py_lt_false, py_le_false by lra. reflexivity.
  - intros ->. rewrite py_le_true by lra. unfold passed. cbn [filter].
    repeat match goal with |- context [if ?b then _ else _] => destruct b end;
      reflexivity.
  - intros (-> & -> & -> & -> & ->). rewrite !(py_lt_false _ _ (Rle_refl _)).
    unfold passed. cbn [filter].
    repeat match goal with |- context [if ?b then _ else _] => destruct b end;
      reflexivity.
Qed.

(** ** Stable-growth and terminal-value formulas *)

(** A guard [if rate <= growth: raise ValueError(msg)] followed by the
    division by the spread meets the stable-growth contract. *)
Lemma stable_growth_guard (msg : string) (numerator rate growth : R) :
  stable_growth_contract
    (if py_le rate growth then raise (ValueError msg)
     else py_div numerator (rate - growth))
    numerator rate growth.
Proof.
  unfold stable_growth_contract.
  destruct (Rle_lt_dec rate growth) as [Hle | Hlt].
  - rewrite (py_le_true _ _ Hle). split.
    + split; [intros _; exact Hle | intros _; apply invalid_input_raise].
    + intros Hgt. lra.
  - rewrite (py_le_false _ _ Hlt).
    assert (Hne : rate - growth <> 0) by lra.
    rewrite (py_div_ok _ _ Hne). split.
    + split; [intros Hinv; destruct (invalid_input_not_ok _ Hinv) | intros Hle; lra].
    + intros _. reflexivity.
Qed.

(** C4.  Each of the eight stable-growth / terminal-value formulas raises
    the invalid-input error exactly when the discount rate is at most
    the growth rate, and for a discount rate strictly above the growth
    rate returns its documented numerator divided by (rate - growth);
    [gordon_growth_model(5, 0.08, 0.08)] raises invalid-input. *)
Theorem stable_growth_formulas :
  (forall fcf wacc g,
      stable_growth_contract (terminal_value_gordon_growth fcf wacc g) fcf wacc g) /\
  (forall fcfe re g,
      stable_growth_contract (fcfe_terminal_value fcfe re g) fcfe re g) /\
  (forall d1 re g,
      stable_growth_contract (gordon_growth_model d1 re g) d1 re g) /\
  (forall payout g re,
      stable_growth_contract (justified_pe_stable_growth payout g re)
        (payout * (1 + g)) re g) /\
  (forall roe g re,
      stable_growth_contract (justified_pb_ratio roe g re) (roe - g) re g) /\
  (forall margin payout g re,
      stable_growth_contract (justified_ps_ratio margin payout g re)
        (margin * payout * (1 + g)) re g) /\
  (forall t rr g wacc,
      stable_growth_contract (justified_ev_ebitda t rr g wacc)
        ((1 - t) * (1 - rr) * (1 + g)) wacc g) /\
  (forall om t rr g wacc,
      stable_growth_contract (justified_ev_sales om t rr g wacc)
        (om * (1 - t) * (1 - rr) * (1 + g)) wacc g) /\
  gordon_growth_model 5 0.08 0.08
    = Err (ValueError "Cost of Equity must be greater than growth rate").
Proof.
  repeat (split; [intros; apply stable_growth_guard |]).
  unfold gordon_growth_model. rewrite py_le_true by lra. reflexivity.
Qed.

(** ** Variance and downside deviation *)

Lemma sample_variance_ok (data : list R) :
  (2 <= List.length data)%nat ->
  sample_variance data = Ok (sq_dev_sum data / (INR (List.length data) - 1)).
Proof.
  intros Hn. unfold sample_variance.
  assert (Hlt : (len data <? 2)%Z = false) by (apply Z.ltb_ge; unfold len; lia).
  rewrite Hlt.
  assert (Hpos : 2 <= INR (List.length data)) by (apply (le_INR 2), Hn).
  rewrite py_div_ok by (rewrite IZR_len; lra). cbn [bind].
  rewrite py_div_ok by (rewrite IZR_len_pred; lra).
  rewrite !py_sum_Sigma, IZR_len, IZR_len_pred. reflexivity.
Qed.

Lemma sample_variance_short (data : list R) :
  (List.length data < 2)%nat ->
  sample_variance data = Err (ValueError "Need at least 2 data points for sample variance").
Proof.
  intros Hn. unfold sample_variance.
  assert (Hlt : (len data <? 2)%Z = true) by (apply Z.ltb_lt; unfold len; lia).
  rewrite Hlt. reflexivity.
Qed.

Lemma population_variance_ok (data : list R) :
  data <> [] ->
  population_variance data = Ok (sq_dev_sum data / INR (List.length data)).
Proof.
  intros Hne. unfold population_variance. rewrite (len_nonempty _ Hne).
  pose proof (INR_length_pos _ Hne) as Hpos.
  rewrite py_div_ok by (rewrite IZR_len; lra). cbn [bind].
  rewrite py_div_ok by (rewrite IZR_len; lra).
  rewrite !py_sum_Sigma, IZR_len. reflexivity.
Qed.

(** C5.  On at least two numbers [sample_variance] returns the sum of
    squared deviations from the mean divided by [n - 1], and raises
    invalid-input on fewer; on a non-empty list [population_variance]
    returns the same sum divided by [n], and raises invalid-input on the
    empty list.  On [2,4,4,4,5,5,7,9] they give [32/7], about 4.571428,
    and [4]. *)
Theorem variance_formulas :
  (forall data, (2 <= List.length data)%nat ->
     sample_variance data = Ok (sq_dev_sum data / (INR (List.length data) - 1))) /\
  (forall data, (List.length data < 2)%nat -> invalid_input (sample_variance data)) /\
  (forall data, data <> [] ->
     population_variance data = Ok (sq_dev_sum data / INR (List.length data))) /\
  invalid_input (population_variance []) /\
  sample_variance [2; 4; 4; 4; 5; 5; 7; 9] = Ok (32 / 7) /\
  4.571428 < 32 / 7 < 4.571429 /\
  population_variance [2; 4; 4; 4; 5; 5; 7; 9] = Ok 4.
Proof.
  split; [exact sample_variance_ok |].
  split; [intros data H; rewrite (sample_variance_short _ H); apply invalid_input_raise |].
  split; [exact population_variance_ok |].
  split; [apply invalid_input_raise |].
  split; [| split; [lra |]].
  - rewrite sample_variance_ok by (cbn; lia). f_equal.
    unfold sq_dev_sum, mean, Sigma. cbn. field.
  - rewrite population_variance_ok by discriminate. f_equal.
    unfold sq_dev_sum, mean, Sigma. cbn. field.
Qed.

(** C7.  On a non-empty list [downside_deviation] returns the square root
    of the sum of [min(0, r - MAR)^2] divided by [n] (not [n - 1]), and
    raises invalid-input on the empty list. *)
Theorem downside_deviation_formula :
  (forall returns mar, returns <> [] ->
     downside_deviation returns mar
     = Ok (sqrt (downside_sq_sum returns mar / INR (List.length returns)))) /\
  (forall mar, downside_deviation [] mar
     = Err (ValueError "Returns list cannot be empty")) /\
  downside_deviation [-3; 1; -4; 2] 0 = Ok (5 / 2).
Proof.
  assert (Hmain : forall returns mar, returns <> [] ->
     downside_deviation returns mar
     = Ok (sqrt (downside_sq_sum returns mar / INR (List.length returns)))).
  { intros returns mar Hne. unfold downside_deviation. rewrite (len_nonempty _ Hne).
    pose proof (INR_length_pos _ Hne) as Hpos.
    rewrite py_div_ok by (rewrite IZR_len; lra). cbn [bind].
    rewrite py_sum_Sigma, IZR_len.
    assert (Heq : map (fun r => py_sq (py_min 0 (r - mar))) returns
                  = map (fun r => (Rmin 0 (r - mar)) ^ 2) returns).
    { apply map_ext. intros r. unfold py_sq. rewrite py_min_Rmin. reflexivity. }
    rewrite Heq. fold (downside_sq_sum returns mar).
    apply math_sqrt_ok. apply Rmult_le_pos.
    - apply Sigma_squares_nonneg.
    - left. apply Rinv_0_lt_compat, Hpos. }
  split; [exact Hmain |]. split; [reflexivity |].
  rewrite Hmain by discriminate. f_equal.
  unfold downside_sq_sum, Sigma. cbn [map fold_right List.length].
  replace (Rmin 0 (-3 - 0)) with (-3) by (unfold Rmin; destruct (Rle_dec 0 (-3 - 0)); lra).
  replace (Rmin 0 (1 - 0)) with 0 by (unfold Rmin; destruct (Rle_dec 0 (1 - 0)); lra).
  replace (Rmin 0 (-4 - 0)) with (-4) by (unfold Rmin; destruct (Rle_dec 0 (-4 - 0)); lra).
  replace (Rmin 0 (2 - 0)) with 0 by (unfold Rmin; destruct (Rle_dec 0 (2 - 0)); lra).
  replace (((-3) ^ 2 + (0 ^ 2 + ((-4) ^ 2 + (0 ^ 2 + 0)))) / INR 4) with ((5 / 2) * (5 / 2)).
  - apply sqrt_square. lra.
  - cbn. field.
Qed.

(** ** Compound annual growth rate *)

Lemma Rpower_fifth_root_of_two :
  0 < Rpower 2 (1 / 5) /\ Rpower 2 (1 / 5) ^ 5 = 2.
Proof.
  assert (Hpos : 0 < Rpower 2 (1 / 5)) by (unfold Rpower; apply exp_pos).
  split; [exact Hpos |].
  rewrite <- (Rpower_pow 5 _ Hpos), Rpower_mult.
  replace (1 / 5 * INR 5) with 1 by (cbn; field).
  apply Rpower_1. lra.
Qed.

Lemma fifth_root_of_two_bounds : 1.14869 < Rpower 2 (1 / 5) < 1.14870.
Proof.
  destruct Rpower_fifth_root_of_two as [Hpos H5]. split.
  - apply Rnot_le_lt. intros Hle.
    assert (H : Rpower 2 (1 / 5) ^ 5 <= 1.14869 ^ 5) by (apply pow_incr; lra).
    rewrite H5 in H. lra.
  - apply Rnot_le_lt. intros Hle.
    assert (H : 1.14870 ^ 5 <= Rpower 2 (1 / 5) ^ 5) by (apply pow_incr; lra).
    rewrite H5 in H. lra.
Qed.

Lemma cagr_guards_pass (e b n : R) :
  b <> 0 -> n <> 0 ->
  compound_annual_growth_rate e b n
  = (p <- py_pow (e / b) (1 / n) ;; ret (num_mul (num_sub p 1) 100)).
Proof.
  intros Hb Hn. unfold compound_annual_growth_rate.
  rewrite (py_eq_false _ _ Hb), (py_eq_false _ _ Hn), !py_div_ok by assumption.
  reflexivity.
Qed.

Lemma Int_part_IZR (k : Z) : Int_part (IZR k) = k.
Proof.
  unfold Int_part.
  assert (H : (k + 1)%Z = up (IZR k)).
  { apply tech_up; rewrite plus_IZR; lra. }
  rewrite <- H. lia.
Qed.

Lemma is_integral_IZR (k : Z) : is_integral (IZR k) = true.
Proof. unfold is_integral. rewrite Int_part_IZR. apply py_eq_true. reflexivity. Qed.

Lemma is_integral_fractional (y : R) : (forall k, y <> IZR k) -> is_integral y = false.
Proof. intros H. unfold is_integral. apply py_eq_false, H. Qed.

(** C6, as the code has it.  [compound_annual_growth_rate] raises
    invalid-input when the beginning value or the number of years is
    zero.  Otherwise it returns ((ending / beginning)^(1 / years) - 1) *
    100 in every case but one: for a positive ratio the power is the
    real one; for a zero ending value and positive years the result is
    -100; for a negative ratio the power is the real one when 1 / years
    is a whole number and the principal complex value when it is not.
    The one exception is a zero ending value with negative years, where
    the power raises [ZeroDivisionError].  On (200, 100, 5) the result
    is (2^(1/5) - 1) * 100, between 14.869 and 14.870; on (-8, 1, 1) it
    is -900. *)
Theorem cagr_formula :
  (forall e n, compound_annual_growth_rate e 0 n
     = Err (ValueError "Beginning Value cannot be zero")) /\
  (forall e b, b <> 0 -> compound_annual_growth_rate e b 0
     = Err (ValueError "Number of Years cannot be zero")) /\
  (forall e b n, b <> 0 -> n <> 0 -> 0 < e / b ->
     compound_annual_growth_rate e b n
     = Ok (Float ((Rpower (e / b) (1 / n) - 1) * 100))) /\
  (forall b n, b <> 0 -> 0 < n ->
     compound_annual_growth_rate 0 b n = Ok (Float (- 100))) /\
  (forall e b n k, b <> 0 -> n <> 0 -> e / b < 0 -> 1 / n = IZR k ->
     compound_annual_growth_rate e b n
     = Ok (Float ((powerRZ (e / b) k - 1) * 100))) /\
  (forall e b n, b <> 0 -> n <> 0 -> e / b < 0 -> (forall k, 1 / n <> IZR k) ->
     compound_annual_growth_rate e b n
     = Ok (Complex ((Rpower (- (e / b)) (1 / n) * cos (PI * (1 / n)) - 1) * 100)
                   (Rpower (- (e / b)) (1 / n) * sin (PI * (1 / n)) * 100))) /\
  (forall b n, b <> 0 -> n < 0 ->
     compound_annual_growth_rate 0 b n = Err ZeroDivisionError) /\
  compound_annual_growth_rate 200 100 5 = Ok (Float ((Rpower 2 (1 / 5) - 1) * 100)) /\
  14.869 < (Rpower 2 (1 / 5) - 1) * 100 < 14.870 /\
  compound_annual_growth_rate (-8) 1 1 = Ok (Float (-900)).
Proof.
  assert (Hpos : forall e b n, b <> 0 -> n <> 0 -> 0 < e / b ->
     compound_annual_growth_rate e b n
     = Ok (Float ((Rpower (e / b) (1 / n) - 1) * 100))).
  { intros e b n Hb Hn Hr. rewrite (cagr_guards_pass _ _ _ Hb Hn). unfold py_pow.
    rewrite py_eq_false by lra. rewrite (py_lt_true _ _ Hr). reflexivity. }
  assert (Hint : forall e b n k, b <> 0 -> n <> 0 -> e / b < 0 -> 1 / n = IZR k ->
     compound_annual_growth_rate e b n
     = Ok (Float ((powerRZ (e / b) k - 1) * 100))).
  { intros e b n k Hb Hn Hr Hk. rewrite (cagr_guards_pass _ _ _ Hb Hn). unfold py_pow.
    rewrite py_eq_false, py_lt_false by lra.
    rewrite Hk, is_integral_IZR, Int_part_IZR. reflexivity. }
  assert (H0 : forall b, 0 / b = 0) by (intros b; unfold Rdiv; apply Rmult_0_l).
  split; [| split; [| split; [exact Hpos | split; [| split; [exact Hint |
    split; [| split; [| split; [| split]]]]]]]].
  - intros e n. unfold compound_annual_growth_rate. rewrite py_eq_true; reflexivity.
  - intros e b Hb. unfold compound_annual_growth_rate.
    rewrite (py_eq_false _ _ Hb), py_eq_true; reflexivity.
  - intros b n Hb Hn. rewrite cagr_guards_pass by lra. unfold py_pow.
    assert (Hexp : 0 < 1 / n) by (apply Rdiv_lt_0_compat; lra).
    rewrite H0, py_eq_true by reflexivity.
    rewrite py_lt_false, py_eq_false by lra.
    unfold ret. cbn [bind num_sub num_mul]. do 2 f_equal. lra.
  - intros e b n Hb Hn Hr Hk. rewrite (cagr_guards_pass _ _ _ Hb Hn). unfold py_pow.
    rewrite py_eq_false, py_lt_false by lra.
    rewrite (is_integral_fractional _ Hk). reflexivity.
  - intros b n Hb Hn. rewrite cagr_guards_pass by lra. unfold py_pow.
    assert (Hexp : 1 / n < 0).
    { unfold Rdiv. rewrite Rmult_1_l. apply Rinv_lt_0_compat, Hn. }
    rewrite H0, py_eq_true by reflexivity. rewrite (py_lt_true _ _ Hexp). reflexivity.
  - rewrite Hpos by lra. replace (200 / 100) with 2 by lra. reflexivity.
  - pose proof fifth_root_of_two_bounds. lra.
  - rewrite (Hint (-8) 1 1 1%Z) by lra. do 2 f_equal.
    replace (-8 / 1) with (-8) by lra.
    change (powerRZ (-8) 1) with ((-8) ^ 1). simpl. lra.
Qed.

(** C6, as stated, fails: with a zero ending value and a negative number
    of years both guards pass and the power operator raises
    [ZeroDivisionError], so nothing is returned. *)
Lemma cagr_zero_to_negative_power :
  100 <> 0 /\ -1 <> 0 /\
  compound_annual_growth_rate 0 100 (-1) = Err ZeroDivisionError.
Proof.
  split; [lra | split; [lra |]].
  rewrite cagr_guards_pass by lra. unfold py_pow.
  replace (0 / 100) with 0 by lra. replace (1 / -1) with (-1) by lra.
  rewrite py_eq_true by reflexivity. rewrite py_lt_true by lra. reflexivity.
Qed.

(** ** Unit conversion *)

Lemma IZR_factor_nonzero (z : Z) : (0 < z)%Z -> IZR z <> 0.
Proof. intros H. apply not_0_IZR. lia. Qed.

Ltac unit_cases :=
  repeat match goal with
         | H : In _ (_ :: _) |- _ => destruct H as [H | H]; [subst |]
         | H : In _ [] |- _ => destruct H
         end.

(** C8.  Converting between two units of the magnitude table and back
    gives the value back, exactly in real arithmetic; with equal units
    the value is returned unchanged. *)
Theorem convert_units_round_trip :
  forall (x : R) (u v : string),
    In u magnitude_units -> In v magnitude_units ->
    exists y, convert_units x u v = Ok y /\ convert_units y v u = Ok x /\
              (u = v -> y = x).
Proof.
  intros x u v Hu Hv. unfold magnitude_units in *. cbn [map fst CONVERSION_FACTORS] in *.
  unit_cases;
    (eexists; split; [| split];
     [ unfold convert_units; cbn; rewrite ?py_div_ok by (apply IZR_factor_nonzero; lia);
       reflexivity
     | unfold convert_units; cbn; rewrite ?py_div_ok by (apply IZR_factor_nonzero; lia);
       cbn; first [reflexivity | unfold ret; f_equal; field]
     | intros Heq; try discriminate Heq; reflexivity ]).
Qed.

Lemma convert_units_round_trip_witness :
  exists y, convert_units 2.5 "million" "billion" = Ok y /\
            convert_units y "billion" "million" = Ok 2.5 /\
            ("million"%string = "billion"%string -> y = 2.5).
Proof.
  apply (convert_units_round_trip 2.5 "million" "billion");
    unfold magnitude_units; cbn; tauto.
Defined.

(** ** Covariance and correlation *)

Section PairedSum.

Variables mx my : R.

(** The index loop over two lists of one length visits the pairs in
    order and never leaves the lists. *)
Lemma py_sum_gen_pairs (x y px py : list R) (acc : R) :
  List.length px = List.length py ->
  List.length x = List.length y ->
  py_sum_gen
    (fun i => xi <- py_getitem (px ++ x) i ;; yi <- py_getitem (py ++ y) i ;;
              ret ((xi - mx) * (yi - my)))
    (seq (List.length px) (List.length x)) acc
  = Ok (acc + cross_dev_sum mx my x y).
Proof.
  revert y px py acc. induction x as [| a x IH]; intros y px py acc Hp Hxy.
  - cbn. unfold ret. f_equal. lra.
  - destruct y as [| b y]; [discriminate Hxy |].
    cbn [List.length seq py_sum_gen]. unfold py_getitem at 1 2.
    rewrite nth_error_app2 by lia. rewrite Nat.sub_diag. cbn [nth_error bind ret].
    rewrite Hp. rewrite nth_error_app2 by lia. rewrite Nat.sub_diag. cbn [nth_error bind ret].
    rewrite <- Hp.
    replace (px ++ a :: x) with ((px ++ [a]) ++ x) by (rewrite <- app_assoc; reflexivity).
    replace (py ++ b :: y) with ((py ++ [b]) ++ y) by (rewrite <- app_assoc; reflexivity).
    replace (S (List.length px)) with (List.length (px ++ [a]))
      by (rewrite length_app; cbn; lia).
    rewrite IH.
    + cbn [cross_dev_sum]. f_equal. lra.
    + rewrite !length_app. cbn. lia.
    + cbn [List.length] in Hxy. lia.
Qed.

End PairedSum.

Lemma sample_covariance_ok (x y : list R) :
  List.length x = List.length y -> (2 <= List.length x)%nat ->
  sample_covariance x y
  = Ok (cross_dev_sum (mean x) (mean y) x y / (INR (List.length x) - 1)).
Proof.
  intros Hxy Hn. unfold sample_covariance.
  assert (Heq : (len x =? len y)%Z = true) by (apply Z.eqb_eq; unfold len; lia).
  assert (Hlt : (len x <? 2)%Z = false) by (apply Z.ltb_ge; unfold len; lia).
  rewrite Heq, Hlt. cbn [negb].
  assert (Hpos : 2 <= INR (List.length x)) by (apply (le_INR 2), Hn).
  assert (Hposy : 2 <= INR (List.length y)) by (rewrite <- Hxy; exact Hpos).
  rewrite !py_div_ok by (rewrite IZR_len; lra). cbn [bind].
  unfold range_len.
  pose proof (py_sum_gen_pairs (py_sum x / IZR (len x)) (py_sum y / IZR (len y))
                x y [] [] 0 eq_refl Hxy) as Hsum.
  cbn [app List.length] in Hsum. rewrite Hsum. cbn [bind].
  rewrite py_div_ok by (rewrite IZR_len_pred; lra).
  rewrite !py_sum_Sigma, !IZR_len, IZR_len_pred. unfold mean. f_equal. f_equal. lra.
Qed.

Lemma cross_dev_sum_self (m : R) (x : list R) :
  cross_dev_sum m m x x = Sigma (map (fun a => (a - m) ^ 2) x).
Proof.
  unfold Sigma. induction x as [| a x IH]; cbn [cross_dev_sum map fold_right].
  - reflexivity.
  - rewrite IH. lra.
Qed.

Lemma cross_dev_sum_opp (m : R) (x : list R) :
  cross_dev_sum m (- m) x (map Ropp x) = - Sigma (map (fun a => (a - m) ^ 2) x).
Proof.
  unfold Sigma. induction x as [| a x IH]; cbn [cross_dev_sum map fold_right].
  - lra.
  - rewrite IH. lra.
Qed.

Lemma Sigma_opp (x : list R) : Sigma (map Ropp x) = - Sigma x.
Proof.
  unfold Sigma. induction x as [| a x IH]; cbn [map fold_right].
  - lra.
  - rewrite IH. lra.
Qed.

Lemma mean_opp (x : list R) : mean (map Ropp x) = - mean x.
Proof. unfold mean. rewrite Sigma_opp, length_map. unfold Rdiv. lra. Qed.

Lemma sq_dev_sum_opp (x : list R) : sq_dev_sum (map Ropp x) = sq_dev_sum x.
Proof.
  unfold sq_dev_sum. rewrite mean_opp, map_map. f_equal.
  apply map_ext. intros a. lra.
Qed.

Lemma sample_variance_inv (x : list R) (v : R) :
  sample_variance x = Ok v ->
  (2 <= List.length x)%nat /\ v = sq_dev_sum x / (INR (List.length x) - 1).
Proof.
  intros H. destruct (le_lt_dec 2 (List.length x)) as [Hn | Hn].
  - split; [exact Hn |]. rewrite (sample_variance_ok _ Hn) in H. congruence.
  - rewrite (sample_variance_short _ Hn) in H. discriminate H.
Qed.

(** C9, as amended: in real arithmetic.  For a list [x] whose sample
    variance exists and is not zero (so of at least two numbers),
    [correlation_coefficient(x, x)] is exactly [1], and the coefficient
    of [x] with its element-wise negation is exactly [-1].  Over
    binary64 floats the results agree with these only up to rounding:
    the list [[1.0; 2.0]] gives [0.9999999999999998] with itself. *)
Theorem correlation_self_and_negation :
  forall (x : list R) (v : R),
    sample_variance x = Ok v -> v <> 0 ->
    correlation_coefficient x x = Ok 1 /\
    correlation_coefficient x (map Ropp x) = Ok (-1).
Proof.
  intros x v Hv Hv0. apply sample_variance_inv in Hv. destruct Hv as [Hn Hv].
  assert (Hpos : 2 <= INR (List.length x)) by (apply (le_INR 2), Hn).
  assert (Hge : 0 <= v).
  { rewrite Hv. apply Rmult_le_pos.
    - apply Sigma_squares_nonneg.
    - left. apply Rinv_0_lt_compat. lra. }
  assert (Hs : sqrt v <> 0).
  { intros H0. apply sqrt_eq_0 in H0; [contradiction | exact Hge]. }
  assert (Hstd : sample_standard_deviation x = Ok (sqrt v)).
  { unfold sample_standard_deviation. rewrite (sample_variance_ok _ Hn), <- Hv. cbn [bind].
    apply math_sqrt_ok, Hge. }
  assert (Hstd' : sample_standard_deviation (map Ropp x) = Ok (sqrt v)).
  { unfold sample_standard_deviation.
    rewrite sample_variance_ok by (rewrite length_map; exact Hn).
    rewrite sq_dev_sum_opp, length_map, <- Hv. cbn [bind]. apply math_sqrt_ok, Hge. }
  assert (Hdiv : forall c, py_div c (sqrt v * sqrt v) = Ok (c / v)).
  { intros c. rewrite (sqrt_sqrt _ Hge). apply py_div_ok, Hv0. }
  split.
  - unfold correlation_coefficient. rewrite Z.eqb_refl. cbn [negb].
    rewrite (sample_covariance_ok x x eq_refl Hn), Hstd. cbn [bind].
    rewrite (py_eq_false _ _ Hs). cbn [orb].
    rewrite Hdiv, cross_dev_sum_self. fold (sq_dev_sum x). rewrite <- Hv.
    f_equal. field. exact Hv0.
  - unfold correlation_coefficient.
    assert (Hlen : (len x =? len (map Ropp x))%Z = true)
      by (apply Z.eqb_eq; unfold len; rewrite length_map; reflexivity).
    rewrite Hlen. cbn [negb].
    rewrite sample_covariance_ok by (rewrite ?length_map; auto).
    rewrite Hstd, Hstd'. cbn [bind]. rewrite (py_eq_false _ _ Hs). cbn [orb].
    rewrite Hdiv, mean_opp, cross_dev_sum_opp. fold (sq_dev_sum x).
    replace (- sq_dev_sum x / (INR (List.length x) - 1)) with (- v)
      by (rewrite Hv; unfold Rdiv; lra).
    f_equal. field. exact Hv0.
Qed.

Lemma correlation_self_and_negation_witness :
  correlation_coefficient [1; 2] [1; 2] = Ok 1 /\
  correlation_coefficient [1; 2] (map Ropp [1; 2]) = Ok (-1).
Proof.
  apply (correlation_self_and_negation [1; 2] (1 / 2)).
  - rewrite sample_variance_ok by (cbn; lia). f_equal.
    unfold sq_dev_sum, mean, Sigma. cbn. field.
  - lra.
Defined.

(** C9, as stated, fails over binary64 floats.  The list [[1.0; 2.0]]
    has sample variance [0.5]; both standard deviations are the rounded
    square root of [0.5], whose rounded product is one unit in the last
    place above [0.5], so [correlation_coefficient] returns
    [0.9999999999999998] on the list and itself, and
    [-0.9999999999999998] on the list and its negation: neither [1.0]
    nor [-1.0]. *)
Lemma correlation_self_not_one_in_binary64 :
  Binary64.sample_variance [1; 2]%float = Ok 0.5%float /\
  Binary64.correlation_coefficient [1; 2]%float [1; 2]%float
    = Ok 0x1.ffffffffffffep-1%float /\
  Binary64.correlation_coefficient [1; 2]%float [-1; -2]%float
    = Ok (-0x1.ffffffffffffep-1)%float /\
  PrimFloat.eqb 0x1.ffffffffffffep-1 1 = false /\
  PrimFloat.eqb (-0x1.ffffffffffffep-1) (-1) = false.
Proof. repeat split; vm_compute; reflexivity. Qed.

(** ** Graham number *)

(** C10, as amended.  [graham_number] has no guard of its own.  It
    returns the square root of [22.5 * eps * bvps] whenever that product
    is non-negative.  Whenever [eps * bvps] is negative, [math.sqrt]
    raises its [ValueError], with the message [math domain error]: the
    call fails, and the failure is of the invalid-input kind. *)
Theorem graham_number_unguarded :
  forall eps bvps,
    (0 <= 22.5 * eps * bvps ->
     graham_number eps bvps = Ok (sqrt (22.5 * eps * bvps))) /\
    (eps * bvps < 0 ->
     graham_number eps bvps = Err (ValueError "math domain error") /\
     invalid_input (graham_number eps bvps)).
Proof.
  intros eps bvps. unfold graham_number. split.
  - intros H. apply math_sqrt_ok, H.
  - intros H. rewrite math_sqrt_domain by lra. split; [reflexivity |].
    apply invalid_input_raise.
Qed.

(** C10, as stated, fails: on [(1, -1)] the product is negative and the
    error that reaches the caller is a [ValueError], which is the
    invalid-input failure and not something else in its place. *)
Lemma graham_number_negative_is_invalid_input :
  1 * -1 < 0 /\
  graham_number 1 (-1) = Err (ValueError "math domain error") /\
  invalid_input (graham_number 1 (-1)).
Proof.
  assert (H : graham_number 1 (-1) = Err (ValueError "math domain error")).
  { unfold graham_number. apply math_sqrt_domain. lra. }
  split; [lra |]. split; [exact H |]. rewrite H. apply invalid_input_raise.
Qed.

(** ** Further properties of the statistical formulas *)

Lemma mean_shift (c : R) (xs : list R) :
  xs <> [] -> mean (map (fun x => x + c) xs) = mean xs + c.
Proof.
  intros Hne. pose proof (INR_length_pos _ Hne) as Hpos.
  unfold mean. rewrite length_map.
  assert (H : Sigma (map (fun x => x + c) xs) = Sigma xs + INR (List.length xs) * c).
  { clear. unfold Sigma. induction xs as [| a xs IH].
    - cbn. lra.
    - cbn [map fold_right]. rewrite IH. change (List.length (a :: xs)) with (S (List.length xs)).
      rewrite S_INR. lra. }
  rewrite H. field. lra.
Qed.

Lemma mean_scale (k : R) (xs : list R) : mean (map (Rmult k) xs) = k * mean xs.
Proof.
  unfold mean. rewrite length_map.
  assert (H : Sigma (map (Rmult k) xs) = k * Sigma xs).
  { unfold Sigma. induction xs as [| a xs IH]; cbn [map fold_right]; [lra | rewrite IH; lra]. }
  rewrite H. unfold Rdiv. lra.
Qed.

Lemma sq_dev_sum_shift (c : R) (xs : list R) :
  sq_dev_sum (map (fun x => x + c) xs) = sq_dev_sum xs.
Proof.
  destruct xs as [| a xs]; [reflexivity |].
  unfold sq_dev_sum. rewrite mean_shift by discriminate. rewrite map_map. f_equal.
  apply map_ext. intros x. f_equal. lra.
Qed.

Lemma sq_dev_sum_scale (k : R) (xs : list R) :
  sq_dev_sum (map (Rmult k) xs) = k ^ 2 * sq_dev_sum xs.
Proof.
  unfold sq_dev_sum. rewrite mean_scale, map_map. generalize (mean xs). intros m.
  unfold Sigma. induction xs as [| a xs IH]; cbn [map fold_right]; [lra | rewrite IH; lra].
Qed.

Lemma sample_variance_cases (data : list R) :
  ((2 <= List.length data)%nat /\
   sample_variance data = Ok (sq_dev_sum data / (INR (List.length data) - 1))) \/
  ((List.length data < 2)%nat /\
   sample_variance data = Err (ValueError "Need at least 2 data points for sample variance")).
Proof.
  destruct (le_lt_dec 2 (List.length data)) as [H | H].
  - left. split; [exact H | apply sample_variance_ok, H].
  - right. split; [exact H | apply sample_variance_short, H].
Qed.

Lemma sq_dev_sum_nonneg (xs : list R) : 0 <= sq_dev_sum xs.
Proof. unfold sq_dev_sum. apply Sigma_squares_nonneg. Qed.

Lemma standard_deviation_of_variance :
  (forall data v, sample_variance data = Ok v ->
     0 <= v /\ sample_standard_deviation data = Ok (sqrt v)) /\
  (forall data v, population_variance data = Ok v ->
     0 <= v /\ population_standard_deviation data = Ok (sqrt v)).
Proof.
  split; intros data v Hv.
  - assert (Hge : 0 <= v).
    { apply sample_variance_inv in Hv. destruct Hv as [Hn ->].
      assert (2 <= INR (List.length data)) by (apply (le_INR 2), Hn).
      apply Rmult_le_pos; [apply sq_dev_sum_nonneg | left; apply Rinv_0_lt_compat; lra]. }
    split; [exact Hge |]. unfold sample_standard_deviation. rewrite Hv. cbn [bind].
    apply math_sqrt_ok, Hge.
  - assert (Hge : 0 <= v).
    { assert (Hne : data <> []) by (intros ->; discriminate Hv).
      rewrite (population_variance_ok _ Hne) in Hv. injection Hv as <-.
      apply Rmult_le_pos; [apply sq_dev_sum_nonneg |].
      left. apply Rinv_0_lt_compat, INR_length_pos, Hne. }
    split; [exact Hge |]. unfold population_standard_deviation. rewrite Hv. cbn [bind].
    apply math_sqrt_ok, Hge.
Qed.

(** X1.  A variance that is returned is never negative, so the square
    root taken by the standard deviations never fails: wherever the
    variance exists, the standard deviation is its square root. *)
Theorem standard_deviation_defined :
  (forall data v, sample_variance data = Ok v ->
     0 <= v /\ sample_standard_deviation data = Ok (sqrt v)) /\
  (forall data v, population_variance data = Ok v ->
     0 <= v /\ population_standard_deviation data = Ok (sqrt v)).
Proof. exact standard_deviation_of_variance. Qed.

(** X2, in real arithmetic. Adding one constant to every data point
    changes neither variance, errors included. Over binary64 floats the
    variances agree up to rounding; which call fails does not change. *)
Theorem variance_shift_invariant :
  forall (data : list R) (c : R),
    sample_variance (map (fun x => x + c) data) = sample_variance data /\
    population_variance (map (fun x => x + c) data) = population_variance data.
Proof.
  intros data c. split.
  - destruct (sample_variance_cases data) as [[Hn ->] | [Hn ->]].
    + rewrite sample_variance_ok by (rewrite length_map; exact Hn).
      rewrite sq_dev_sum_shift, length_map. reflexivity.
    + apply sample_variance_short. rewrite length_map. exact Hn.
  - destruct data as [| a data]; [reflexivity |].
    rewrite !population_variance_ok by discriminate.
    rewrite sq_dev_sum_shift, length_map. reflexivity.
Qed.

(** X3, in real arithmetic. Multiplying every data point by [k]
    multiplies the sample variance by [k^2] and the sample standard
    deviation by [|k|]. Over binary64 floats the values agree up to
    rounding; which call fails does not change. *)
Theorem variance_scaling :
  forall (data : list R) (k : R),
    sample_variance (map (Rmult k) data)
    = (v <- sample_variance data ;; ret (k ^ 2 * v)) /\
    sample_standard_deviation (map (Rmult k) data)
    = (s <- sample_standard_deviation data ;; ret (Rabs k * s)).
Proof.
  intros data k.
  assert (Hvar : sample_variance (map (Rmult k) data)
                 = (v <- sample_variance data ;; ret (k ^ 2 * v))).
  { destruct (sample_variance_cases data) as [[Hn ->] | [Hn ->]].
    - rewrite sample_variance_ok by (rewrite length_map; exact Hn).
      rewrite sq_dev_sum_scale, length_map. cbn [bind]. unfold ret. f_equal.
      unfold Rdiv. lra.
    - cbn [bind]. apply sample_variance_short. rewrite length_map. exact Hn. }
  split; [exact Hvar |].
  unfold sample_standard_deviation. rewrite Hvar.
  destruct (sample_variance data) as [v | e] eqn:Hv; unfold ret; cbn [bind]; [| reflexivity].
  destruct standard_deviation_of_variance as [Hs _]. destruct (Hs _ _ Hv) as [Hge _].
  assert (Hk : 0 <= k ^ 2) by apply pow2_ge_0.
  rewrite (math_sqrt_ok v Hge), (math_sqrt_ok (k ^ 2 * v)) by (apply Rmult_le_pos; assumption).
  cbn [bind]. f_equal.
  rewrite sqrt_mult by assumption.
  f_equal. replace (k ^ 2) with (Rsqr k) by (unfold Rsqr; lra). apply sqrt_Rsqr_abs.
Qed.

(** X4, in real arithmetic. On at least two points the two variances
    differ by Bessel's factor only: [(n - 1) * sample = n * population].
    Over binary64 floats the two products agree up to rounding. *)
Theorem sample_population_variance :
  forall data, (2 <= List.length data)%nat ->
    exists s p,
      sample_variance data = Ok s /\ population_variance data = Ok p /\
      (INR (List.length data) - 1) * s = INR (List.length data) * p.
Proof.
  intros data Hn.
  assert (2 <= INR (List.length data)) by (apply (le_INR 2), Hn).
  eexists. eexists. split; [apply sample_variance_ok, Hn |]. split.
  - apply population_variance_ok. intros ->. cbn in Hn. lia.
  - field. lra.
Qed.

Lemma sample_population_variance_witness :
  exists s p,
    sample_variance [1; 2; 4] = Ok s /\ population_variance [1; 2; 4] = Ok p /\
    (INR (List.length [1; 2; 4]) - 1) * s = INR (List.length [1; 2; 4]) * p.
Proof. apply (sample_population_variance [1; 2; 4]). cbn. lia. Defined.

Lemma population_covariance_ok (x y : list R) :
  List.length x = List.length y -> x <> [] ->
  population_covariance x y
  = Ok (cross_dev_sum (mean x) (mean y) x y / INR (List.length x)).
Proof.
  intros Hxy Hne. unfold population_covariance.
  assert (Heq : (len x =? len y)%Z = true) by (apply Z.eqb_eq; unfold len; lia).
  rewrite Heq, (len_nonempty _ Hne). cbn [negb].
  pose proof (INR_length_pos _ Hne) as Hpos.
  assert (Hposy : 0 < INR (List.length y)) by (rewrite <- Hxy; exact Hpos).
  rewrite !py_div_ok by (rewrite IZR_len; lra). cbn [bind].
  unfold range_len.
  pose proof (py_sum_gen_pairs (py_sum x / IZR (len x)) (py_sum y / IZR (len y))
                x y [] [] 0 eq_refl Hxy) as Hsum.
  cbn [app List.length] in Hsum. rewrite Hsum. cbn [bind].
  rewrite py_div_ok by (rewrite IZR_len; lra).
  rewrite !py_sum_Sigma, !IZR_len. unfold mean. f_equal. f_equal. lra.
Qed.

Lemma cross_dev_sum_sym (mx my : R) (x y : list R) :
  cross_dev_sum mx my x y = cross_dev_sum my mx y x.
Proof.
  revert y. induction x as [| a x IH]; intros [| b y]; cbn [cross_dev_sum]; try reflexivity.
  rewrite IH. lra.
Qed.

(** X5.  Both covariances are symmetric in their two arguments, errors
    included. *)
Theorem covariance_symmetric :
  forall x y : list R,
    sample_covariance x y = sample_covariance y x /\
    population_covariance x y = population_covariance y x.
Proof.
  intros x y.
  destruct (Nat.eq_dec (List.length x) (List.length y)) as [Hxy | Hxy].
  - split.
    + destruct (le_lt_dec 2 (List.length x)) as [Hn | Hn].
      * rewrite (sample_covariance_ok x y Hxy Hn).
        rewrite (sample_covariance_ok y x (eq_sym Hxy)) by (rewrite <- Hxy; exact Hn).
        rewrite cross_dev_sum_sym, Hxy. reflexivity.
      * unfold sample_covariance, len. rewrite Hxy, Z.eqb_refl. cbn [negb].
        assert (H : (Z.of_nat (List.length y) <? 2)%Z = true) by (apply Z.ltb_lt; lia).
        rewrite H. reflexivity.
    + destruct x as [| a x]; destruct y as [| b y]; try discriminate Hxy; [reflexivity |].
      rewrite (population_covariance_ok _ _ Hxy) by discriminate.
      rewrite (population_covariance_ok _ _ (eq_sym Hxy)) by discriminate.
      rewrite cross_dev_sum_sym, Hxy. reflexivity.
  - assert (H1 : (len x =? len y)%Z = false) by (apply Z.eqb_neq; unfold len; lia).
    assert (H2 : (len y =? len x)%Z = false) by (apply Z.eqb_neq; unfold len; lia).
    unfold sample_covariance, population_covariance. rewrite H1, H2. split; reflexivity.
Qed.

(** X6, in real arithmetic. The covariance of a list with itself is its
    variance: always for the population pair, and on at least two points
    for the sample pair (below that the two messages differ). Over
    binary64 floats the values agree up to rounding ([(x - m) * (x - m)]
    against [(x - m) ** 2]). *)
Theorem covariance_with_itself :
  (forall x, population_covariance x x = population_variance x) /\
  (forall x, (2 <= List.length x)%nat -> sample_covariance x x = sample_variance x).
Proof.
  split.
  - intros [| a x]; [reflexivity |].
    rewrite population_covariance_ok, population_variance_ok by (reflexivity || discriminate).
    rewrite cross_dev_sum_self. reflexivity.
  - intros x Hn.
    rewrite (sample_covariance_ok x x eq_refl Hn), (sample_variance_ok x Hn).
    rewrite cross_dev_sum_self. reflexivity.
Qed.

(** The Cauchy-Schwarz inequality for paired deviations. *)
Lemma cross_dev_sum_quadratic (mx my t : R) (x y : list R) :
  List.length x = List.length y ->
  0 <= t ^ 2 * cross_dev_sum mx mx x x + 2 * t * cross_dev_sum mx my x y
       + cross_dev_sum my my y y.
Proof.
  revert y. induction x as [| a x IH]; intros [| b y] Hxy; try discriminate Hxy.
  - cbn. lra.
  - cbn [cross_dev_sum]. injection Hxy as Hxy. specialize (IH y Hxy).
    pose proof (pow2_ge_0 (t * (a - mx) + (b - my))). nra.
Qed.

Lemma cross_dev_sum_cauchy_schwarz (mx my : R) (x y : list R) :
  List.length x = List.length y ->
  cross_dev_sum mx my x y ^ 2 <= cross_dev_sum mx mx x x * cross_dev_sum my my y y.
Proof.
  intros Hxy.
  set (A := cross_dev_sum mx mx x x). set (B := cross_dev_sum mx my x y).
  set (C := cross_dev_sum my my y y).
  assert (HA : 0 <= A) by (unfold A; rewrite cross_dev_sum_self; apply Sigma_squares_nonneg).
  assert (HQ : forall t, 0 <= t ^ 2 * A + 2 * t * B + C)
    by (intros t; apply cross_dev_sum_quadratic, Hxy).
  destruct (Req_dec_T A 0) as [HA0 | HA0].
  - rewrite HA0. assert (HB : B = 0).
    { destruct (Req_dec_T B 0) as [| HB]; [assumption | exfalso].
      pose proof (HQ (- (C + 1) / (2 * B))) as H. rewrite HA0 in H.
      replace (2 * (- (C + 1) / (2 * B)) * B) with (- (C + 1)) in H by (field; exact HB).
      lra. }
    rewrite HB. lra.
  - assert (HApos : 0 < A) by lra.
    pose proof (HQ (- B / A)) as H.
    replace ((- B / A) ^ 2 * A + 2 * (- B / A) * B + C) with ((A * C - B ^ 2) / A) in H
      by (field; exact HA0).
    assert (H' : 0 <= (A * C - B ^ 2) / A * A) by (apply Rmult_le_pos; lra).
    replace ((A * C - B ^ 2) / A * A) with (A * C - B ^ 2) in H' by (field; exact HA0).
    lra.
Qed.

(** X7.  Whenever [correlation_coefficient] returns, the value lies
    between -1 and 1. *)
Theorem correlation_bounded :
  forall (x y : list R) (r : R),
    correlation_coefficient x y = Ok r -> -1 <= r <= 1.
Proof.
  intros x y r Hr. unfold correlation_coefficient in Hr.
  destruct (len x =? len y)%Z eqn:Hlen; cbn [negb] in Hr; [| discriminate Hr].
  apply Z.eqb_eq in Hlen. unfold len in Hlen. apply Nat2Z.inj in Hlen.
  destruct (le_lt_dec 2 (List.length x)) as [Hn | Hn].
  2:{ unfold sample_covariance, len in Hr. rewrite Hlen, Z.eqb_refl in Hr. cbn [negb] in Hr.
      assert (H : (Z.of_nat (List.length y) <? 2)%Z = true) by (apply Z.ltb_lt; lia).
      rewrite H in Hr. discriminate Hr. }
  assert (Hny : (2 <= List.length y)%nat) by (rewrite <- Hlen; exact Hn).
  rewrite (sample_covariance_ok x y Hlen Hn) in Hr. cbn [bind] in Hr.
  destruct standard_deviation_of_variance as [Hsd _].
  destruct (Hsd x _ (sample_variance_ok x Hn)) as [Hvx Hsx].
  destruct (Hsd y _ (sample_variance_ok y Hny)) as [Hvy Hsy].
  rewrite Hsx, Hsy in Hr. cbn [bind] in Hr.
  set (n1 := INR (List.length x) - 1) in *.
  assert (Hn1 : 0 < n1) by (unfold n1; pose proof (le_INR 2 _ Hn) as H; cbn in H; lra).
  replace (INR (List.length y) - 1) with n1 in * by (unfold n1; rewrite Hlen; reflexivity).
  set (sx := sqrt (sq_dev_sum x / n1)) in *. set (sy := sqrt (sq_dev_sum y / n1)) in *.
  destruct (Req_dec_T sx 0) as [Hx0 | Hx0];
    [rewrite (py_eq_true _ _ Hx0) in Hr; discriminate Hr |].
  destruct (Req_dec_T sy 0) as [Hy0 | Hy0];
    [rewrite (py_eq_false _ _ Hx0), (py_eq_true _ _ Hy0) in Hr; discriminate Hr |].
  rewrite (py_eq_false _ _ Hx0), (py_eq_false _ _ Hy0) in Hr. cbn [orb] in Hr.
  assert (Hsxy : sx * sy <> 0) by (apply Rmult_integral_contrapositive_currified; assumption).
  rewrite (py_div_ok _ _ Hsxy) in Hr. injection Hr as <-.
  assert (Hsxpos : 0 < sx) by (pose proof (sqrt_pos (sq_dev_sum x / n1)); fold sx in H; lra).
  assert (Hsypos : 0 < sy) by (pose proof (sqrt_pos (sq_dev_sum y / n1)); fold sy in H; lra).
  assert (Hprod : 0 < sx * sy) by (apply Rmult_lt_0_compat; assumption).
  assert (Hsx2 : sx * sx = sq_dev_sum x / n1) by (apply sqrt_sqrt, Hvx).
  assert (Hsy2 : sy * sy = sq_dev_sum y / n1) by (apply sqrt_sqrt, Hvy).
  pose proof (cross_dev_sum_cauchy_schwarz (mean x) (mean y) x y Hlen) as HCS.
  rewrite !cross_dev_sum_self in HCS. fold (sq_dev_sum x) in HCS. fold (sq_dev_sum y) in HCS.
  set (c := cross_dev_sum (mean x) (mean y) x y / n1) in *.
  assert (Hc2 : c ^ 2 <= (sx * sy) ^ 2).
  { replace ((sx * sy) ^ 2) with ((sx * sx) * (sy * sy)) by ring.
    rewrite Hsx2, Hsy2. unfold c.
    replace ((cross_dev_sum (mean x) (mean y) x y / n1) ^ 2)
      with (cross_dev_sum (mean x) (mean y) x y ^ 2 / (n1 * n1)) by (field; lra).
    replace (sq_dev_sum x / n1 * (sq_dev_sum y / n1))
      with (sq_dev_sum x * sq_dev_sum y / (n1 * n1)) by (field; lra).
    apply Rmult_le_compat_r; [| exact HCS].
    left. apply Rinv_0_lt_compat. nra. }
  assert (Habs : - (sx * sy) <= c <= sx * sy) by (split; nra).
  split.
  - apply Rmult_le_reg_r with (sx * sy); [exact Hprod |].
    replace (c / (sx * sy) * (sx * sy)) with c by (field; split; assumption). lra.
  - apply Rmult_le_reg_r with (sx * sy); [exact Hprod |].
    replace (c / (sx * sy) * (sx * sy)) with c by (field; split; assumption). lra.
Qed.

Lemma sample_values_12 :
  sq_dev_sum [1; 2] / (INR (List.length [1; 2]) - 1) = 1 / 2 /\
  cross_dev_sum (mean [1; 2]) (mean [2; 1]) [1; 2] [2; 1] / (INR (List.length [1; 2]) - 1)
  = - (1 / 2) /\
  sq_dev_sum [2; 1] / (INR (List.length [2; 1]) - 1) = 1 / 2.
Proof. unfold sq_dev_sum, mean, Sigma. cbn. repeat split; field. Qed.

Lemma correlation_12_21 : correlation_coefficient [1; 2] [2; 1] = Ok (-1).
Proof.
  destruct sample_values_12 as (Hx & Hc & Hy).
  assert (Hs : sqrt (1 / 2) * sqrt (1 / 2) = 1 / 2) by (apply sqrt_sqrt; lra).
  assert (Hs0 : sqrt (1 / 2) <> 0) by (intros H0; rewrite H0 in Hs; lra).
  assert (Hl : (len [1%R; 2%R] =? len [2%R; 1%R])%Z = true) by reflexivity.
  unfold correlation_coefficient. rewrite Hl. cbn [negb].
  rewrite (sample_covariance_ok [1; 2] [2; 1]) by (cbn; lia). rewrite Hc.
  unfold sample_standard_deviation.
  rewrite !sample_variance_ok by (cbn; lia). rewrite Hx, Hy. cbn [bind].
  rewrite math_sqrt_ok by lra. cbn [bind].
  rewrite (py_eq_false _ _ Hs0). cbn [orb]. rewrite Hs.
  rewrite py_div_ok by lra. f_equal. field.
Qed.

Lemma correlation_bounded_witness : -1 <= -1 <= 1.
Proof. apply (correlation_bounded [1; 2] [2; 1] (-1)). exact correlation_12_21. Defined.

Lemma sample_covariance_sym (x y : list R) :
  sample_covariance x y = sample_covariance y x.
Proof.
  destruct (Nat.eq_dec (List.length x) (List.length y)) as [Hxy | Hxy].
  - destruct (le_lt_dec 2 (List.length x)) as [Hn | Hn].
    + rewrite (sample_covariance_ok x y Hxy Hn).
      rewrite (sample_covariance_ok y x (eq_sym Hxy)) by (rewrite <- Hxy; exact Hn).
      rewrite cross_dev_sum_sym, Hxy. reflexivity.
    + unfold sample_covariance, len. rewrite Hxy, Z.eqb_refl. cbn [negb].
      assert (H : (Z.of_nat (List.length y) <? 2)%Z = true) by (apply Z.ltb_lt; lia).
      rewrite H. reflexivity.
  - assert (H1 : (len x =? len y)%Z = false) by (apply Z.eqb_neq; unfold len; lia).
    assert (H2 : (len y =? len x)%Z = false) by (apply Z.eqb_neq; unfold len; lia).
    unfold sample_covariance. rewrite H1, H2. reflexivity.
Qed.

Lemma sample_covariance_short (x y : list R) :
  List.length x = List.length y -> (List.length x < 2)%nat ->
  sample_covariance x y = Err (ValueError "Need at least 2 data points").
Proof.
  intros Hxy Hn. unfold sample_covariance, len. rewrite Hxy, Z.eqb_refl. cbn [negb].
  assert (H : (Z.of_nat (List.length y) <? 2)%Z = true) by (apply Z.ltb_lt; lia).
  rewrite H. reflexivity.
Qed.

Lemma sample_standard_deviation_ok (x : list R) :
  (2 <= List.length x)%nat ->
  sample_standard_deviation x = Ok (sqrt (sq_dev_sum x / (INR (List.length x) - 1))).
Proof.
  intros Hn. destruct standard_deviation_of_variance as [Hsd _].
  apply (Hsd x _ (sample_variance_ok x Hn)).
Qed.

(** X8.  [correlation_coefficient] is symmetric in its two arguments,
    errors included. *)
Theorem correlation_symmetric :
  forall x y : list R, correlation_coefficient x y = correlation_coefficient y x.
Proof.
  intros x y. unfold correlation_coefficient. rewrite (sample_covariance_sym y x).
  rewrite (Z.eqb_sym (len y) (len x)).
  destruct (len x =? len y)%Z eqn:Hlen; cbn [negb]; [| reflexivity].
  apply Z.eqb_eq in Hlen. unfold len in Hlen. apply Nat2Z.inj in Hlen.
  destruct (le_lt_dec 2 (List.length x)) as [Hn | Hn].
  - rewrite (sample_standard_deviation_ok x Hn).
    rewrite (sample_standard_deviation_ok y) by (rewrite <- Hlen; exact Hn).
    destruct (sample_covariance x y) as [c | e]; cbn [bind]; [| reflexivity].
    rewrite orb_comm, Rmult_comm. reflexivity.
  - rewrite (sample_covariance_short x y Hlen Hn). reflexivity.
Qed.

(** X9.  The three failures of [correlation_coefficient], each with its
    own message: lists of different lengths, fewer than two points, and
    a list whose sample variance is zero.  In real arithmetic every list
    of equal points has zero sample variance (last part); over binary64
    floats the mean of equal points can round away from them, and then
    the variance is not zero. *)
Theorem correlation_failures :
  (forall x y, List.length x <> List.length y ->
     correlation_coefficient x y = Err (ValueError "X and Y must have the same length")) /\
  (forall x y, List.length x = List.length y -> (List.length x < 2)%nat ->
     correlation_coefficient x y = Err (ValueError "Need at least 2 data points")) /\
  (forall x y, List.length x = List.length y ->
     sample_variance x = Ok 0 \/ sample_variance y = Ok 0 ->
     correlation_coefficient x y
     = Err (ValueError "Standard deviation cannot be zero")) /\
  (forall c n y, (2 <= n)%nat -> List.length y = n ->
     correlation_coefficient (repeat c n) y
     = Err (ValueError "Standard deviation cannot be zero")).
Proof.
  split; [| split; [| split]].
  - intros x y Hxy. unfold correlation_coefficient.
    assert (H : (len x =? len y)%Z = false) by (apply Z.eqb_neq; unfold len; lia).
    rewrite H. reflexivity.
  - intros x y Hxy Hn. unfold correlation_coefficient.
    assert (H : (len x =? len y)%Z = true) by (apply Z.eqb_eq; unfold len; lia).
    rewrite H. cbn [negb]. rewrite (sample_covariance_short x y Hxy Hn). reflexivity.
  - intros x y Hxy Hv.
    assert (Hn : (2 <= List.length x)%nat).
    { destruct Hv as [Hv | Hv]; apply sample_variance_inv in Hv; lia. }
    unfold correlation_coefficient.
    assert (H : (len x =? len y)%Z = true) by (apply Z.eqb_eq; unfold len; lia).
    rewrite H. cbn [negb].
    rewrite (sample_covariance_ok x y Hxy Hn). cbn [bind].
    destruct Hv as [Hv | Hv].
    + unfold sample_standard_deviation at 1. rewrite Hv. cbn [bind].
      rewrite math_sqrt_ok, sqrt_0 by lra. cbn [bind].
      rewrite sample_standard_deviation_ok by lia. cbn [bind].
      rewrite py_eq_true by reflexivity. reflexivity.
    + rewrite (sample_standard_deviation_ok x Hn). cbn [bind].
      unfold sample_standard_deviation. rewrite Hv. cbn [bind].
      rewrite math_sqrt_ok, sqrt_0 by lra. cbn [bind].
      rewrite (py_eq_true 0 0) by reflexivity. rewrite orb_true_r. reflexivity.
  - intros c n y Hn Hy. unfold correlation_coefficient.
    assert (Hx : List.length (repeat c n) = n) by apply repeat_length.
    assert (H : (len (repeat c n) =? len y)%Z = true) by (apply Z.eqb_eq; unfold len; lia).
    rewrite H. cbn [negb].
    rewrite sample_covariance_ok by lia. cbn [bind].
    rewrite !sample_standard_deviation_ok by lia. cbn [bind].
    assert (Hm : forall k, (0 < k)%nat -> mean (repeat c k) = c).
    { intros k Hk. unfold mean. rewrite repeat_length.
      assert (Hs : Sigma (repeat c k) = INR k * c).
      { unfold Sigma. clear. induction k as [| k IH].
        - cbn. lra.
        - cbn [repeat fold_right]. rewrite IH, S_INR. lra. }
      rewrite Hs. field. apply not_0_INR. lia. }
    assert (H0 : sq_dev_sum (repeat c n) = 0).
    { unfold sq_dev_sum. rewrite Hm by lia. unfold Sigma. clear.
      induction n as [| n IH]; cbn [repeat map fold_right]; [reflexivity |].
      rewrite IH. lra. }
    rewrite H0. unfold Rdiv at 1. rewrite Rmult_0_l, sqrt_0.
    rewrite py_eq_true by reflexivity. reflexivity.
Qed.

Lemma Sigma_nonneg_zero (xs : list R) :
  Forall (fun x => 0 <= x) xs -> (Sigma xs = 0 <-> Forall (fun x => x = 0) xs).
Proof.
  unfold Sigma. induction 1 as [| a xs Ha Hxs IH]; cbn [fold_right].
  - split; [constructor | reflexivity].
  - pose proof (Sigma_nonneg xs Hxs) as Hs. unfold Sigma in Hs. split.
    + intros H0. constructor; [lra | apply IH; lra].
    + intros H0. inversion H0 as [| ? ? Ha0 Hxs0]; subst.
      apply IH in Hxs0. lra.
Qed.

(** X10.  On a non-empty list [downside_deviation] is zero exactly when
    no return lies below the minimum acceptable return. *)
Theorem downside_deviation_zero :
  forall (returns : list R) (mar : R),
    returns <> [] ->
    (downside_deviation returns mar = Ok 0 <-> Forall (fun r => mar <= r) returns).
Proof.
  intros returns mar Hne.
  pose proof (INR_length_pos _ Hne) as Hpos.
  assert (Hdd : downside_deviation returns mar
                = Ok (sqrt (downside_sq_sum returns mar / INR (List.length returns)))).
  { unfold downside_deviation. rewrite (len_nonempty _ Hne).
    rewrite py_div_ok by (rewrite IZR_len; lra). cbn [bind].
    rewrite py_sum_Sigma, IZR_len.
    assert (Heq : map (fun r => py_sq (py_min 0 (r - mar))) returns
                  = map (fun r => (Rmin 0 (r - mar)) ^ 2) returns).
    { apply map_ext. intros r. unfold py_sq. rewrite py_min_Rmin. reflexivity. }
    rewrite Heq. fold (downside_sq_sum returns mar).
    apply math_sqrt_ok, Rmult_le_pos.
    - apply Sigma_squares_nonneg.
    - left. apply Rinv_0_lt_compat, Hpos. }
  rewrite Hdd.
  assert (Hnn : 0 <= downside_sq_sum returns mar) by apply Sigma_squares_nonneg.
  assert (Hall : downside_sq_sum returns mar = 0 <-> Forall (fun r => mar <= r) returns).
  { unfold downside_sq_sum. rewrite Sigma_nonneg_zero.
    - rewrite Forall_map. split; intros H; eapply Forall_impl; try exact H;
        cbv beta; intros r Hr; unfold Rmin in *; destruct (Rle_dec 0 (r - mar)); nra.
    - apply Forall_map, Forall_forall. intros r _. apply pow2_ge_0. }
  rewrite <- Hall. split.
  - intros H. injection H as H. apply sqrt_eq_0 in H.
    + apply Rmult_integral in H. destruct H as [H | H]; [exact H |].
      pose proof (Rinv_0_lt_compat _ Hpos). lra.
    + apply Rmult_le_pos; [exact Hnn | left; apply Rinv_0_lt_compat, Hpos].
  - intros ->. unfold Rdiv. rewrite Rmult_0_l, sqrt_0. reflexivity.
Qed.

Lemma downside_deviation_zero_witness :
  downside_deviation [1; 2] 0 = Ok 0 <-> Forall (fun r => 0 <= r) [1; 2].
Proof. apply (downside_deviation_zero [1; 2] 0). discriminate. Defined.

Lemma Sigma_repeat_weights (w : R) (data : list R) :
  Sigma (map (fun '(v, w') => v * w') (combine data (repeat w (List.length data))))
  = w * Sigma data /\
  Sigma (repeat w (List.length data)) = INR (List.length data) * w.
Proof.
  unfold Sigma. induction data as [| a data [IH1 IH2]].
  - cbn. split; lra.
  - change (List.length (a :: data)) with (S (List.length data)).
    cbn [repeat combine map fold_right]. rewrite IH1, IH2, S_INR. split; lra.
Qed.

(** X11, in real arithmetic. With one and the same non-zero weight on
    every point, [weighted_average] is [arithmetic_mean], the empty-data
    error included. Over binary64 floats the two means agree up to
    rounding. *)
Theorem weighted_average_equal_weights :
  forall (data : list R) (w : R),
    w <> 0 ->
    weighted_average data (repeat w (List.length data)) = arithmetic_mean data.
Proof.
  intros data w Hw. unfold weighted_average, arithmetic_mean, len.
  rewrite repeat_length, Z.eqb_refl. cbn [negb].
  destruct data as [| a data]; [reflexivity |].
  set (d := a :: data).
  assert (Hne : d <> []) by discriminate.
  fold (len d). rewrite (len_nonempty _ Hne). cbv zeta.
  destruct (Sigma_repeat_weights w d) as [H1 H2].
  pose proof (INR_length_pos _ Hne) as Hpos.
  rewrite !py_sum_Sigma, H1, H2.
  assert (Hnw : INR (List.length d) * w <> 0) by (apply Rmult_integral_contrapositive_currified; lra).
  rewrite (py_eq_false _ _ Hnw), !py_div_ok by (rewrite ?IZR_len; lra).
  f_equal. rewrite IZR_len. field. split; lra.
Qed.

Lemma weighted_average_equal_weights_witness :
  weighted_average [1; 2; 6] (repeat 2 (List.length [1; 2; 6])) = arithmetic_mean [1; 2; 6].
Proof. apply (weighted_average_equal_weights [1; 2; 6] 2). lra. Defined.

(** ** Growth rates *)

Lemma fold_left_gross_product (returns : list R) (acc : R) :
  fold_left (fun product r => product * (1 + r)) returns acc = acc * gross_product returns.
Proof.
  unfold gross_product. revert acc.
  induction returns as [| r returns IH]; intros acc; cbn [fold_left fold_right].
  - lra.
  - rewrite IH. lra.
Qed.

Lemma Rpower_root_of_pow (x : R) (n : nat) :
  0 < x -> (0 < n)%nat -> Rpower (x ^ n) (1 / INR n) = x.
Proof.
  intros Hx Hn. rewrite <- (Rpower_pow n x Hx), Rpower_mult.
  replace (INR n * (1 / INR n)) with 1 by (field; apply not_0_INR; lia).
  apply Rpower_1, Hx.
Qed.

Lemma pow_of_Rpower_root (x : R) (n : nat) :
  0 < x -> (0 < n)%nat -> Rpower x (1 / INR n) ^ n = x.
Proof.
  intros Hx Hn.
  assert (Hp : 0 < Rpower x (1 / INR n)) by (unfold Rpower; apply exp_pos).
  rewrite <- (Rpower_pow n _ Hp), Rpower_mult.
  replace (1 / INR n * INR n) with 1 by (field; apply not_0_INR; lia).
  apply Rpower_1, Hx.
Qed.

Lemma geometric_mean_value (returns : list R) :
  returns <> [] ->
  geometric_mean returns
  = (p <- py_pow (gross_product returns) (1 / INR (List.length returns)) ;;
     ret (num_sub p 1)).
Proof.
  intros Hne. unfold geometric_mean. rewrite (len_nonempty _ Hne). cbv zeta.
  pose proof (INR_length_pos _ Hne) as Hpos.
  rewrite py_div_ok by (rewrite IZR_len; lra). cbn [bind].
  rewrite fold_left_gross_product, IZR_len.
  replace (1.0 * gross_product returns) with (gross_product returns) by lra.
  reflexivity.
Qed.

(** X12, in real arithmetic. [geometric_mean] gives back a return that
    repeats: for a series of [n >= 1] equal returns [r > -1] it returns
    [r]. A total loss ([-1]) in any period makes the result [-1]. The
    first part is exact in real arithmetic only (over binary64 floats
    the root is rounded); the second is exact in either. *)
Theorem geometric_mean_constant_and_ruin :
  (forall (r : R) (n : nat), -1 < r -> (0 < n)%nat ->
     geometric_mean (repeat r n) = Ok (Float r)) /\
  (forall returns, In (-1) returns -> geometric_mean returns = Ok (Float (-1))).
Proof.
  split.
  - intros r n Hr Hn.
    assert (Hne : repeat r n <> []) by (destruct n; [lia | discriminate]).
    rewrite (geometric_mean_value _ Hne), repeat_length.
    assert (Hg : gross_product (repeat r n) = (1 + r) ^ n).
    { unfold gross_product. clear. induction n as [| n IH]; cbn [repeat fold_right pow].
      - reflexivity.
      - rewrite IH. reflexivity. }
    rewrite Hg. unfold py_pow.
    assert (Hpos : 0 < (1 + r) ^ n) by (apply pow_lt; lra).
    rewrite py_eq_false, (py_lt_true _ _ Hpos) by lra.
    rewrite Rpower_root_of_pow by (lra || exact Hn).
    unfold ret. cbn [bind num_sub]. do 2 f_equal. lra.
  - intros returns Hin.
    assert (Hne : returns <> []) by (intros ->; destruct Hin).
    rewrite (geometric_mean_value _ Hne).
    assert (Hg : gross_product returns = 0).
    { unfold gross_product. induction returns as [| a returns IH]; [destruct Hin |].
      cbn [fold_right]. destruct Hin as [-> | Hin].
      - lra.
      - rewrite IH; [lra | exact Hin | intros ->; destruct Hin]. }
    pose proof (INR_length_pos _ Hne) as Hpos.
    assert (Hexp : 0 < 1 / INR (List.length returns)) by (apply Rdiv_lt_0_compat; lra).
    rewrite Hg. unfold py_pow. rewrite py_eq_true by reflexivity.
    rewrite py_lt_false, py_eq_false by lra.
    unfold ret. cbn [bind num_sub]. do 2 f_equal. lra.
Qed.

(** X13.  With a non-zero number of years the percentage returned by
    [compound_annual_growth_rate] is [100] times the fraction returned
    by [expected_growth_rate_historical] on the same arguments, and the
    two fail together. *)
Theorem cagr_is_percent_of_expected_growth :
  forall e b n : R,
    n <> 0 ->
    compound_annual_growth_rate e b n
    = (g <- expected_growth_rate_historical e b n ;; ret (num_mul g 100)).
Proof.
  intros e b n Hn. unfold compound_annual_growth_rate, expected_growth_rate_historical.
  destruct (py_eq b 0); [reflexivity |].
  rewrite (py_eq_false _ _ Hn).
  destruct (py_div e b) as [ratio | err]; cbn [bind]; [| reflexivity].
  destruct (py_div 1 n) as [exponent | err]; cbn [bind]; [| reflexivity].
  destruct (py_pow ratio exponent) as [p | err]; reflexivity.
Qed.

Lemma cagr_is_percent_of_expected_growth_witness :
  compound_annual_growth_rate 200 100 5
  = (g <- expected_growth_rate_historical 200 100 5 ;; ret (num_mul g 100)).
Proof. apply (cagr_is_percent_of_expected_growth 200 100 5). lra. Defined.

(** X14, in real arithmetic. Growing the beginning value at the returned
    rate for the whole number of years gives the ending value back: when
    ending / beginning is positive and [n >= 1] is a whole number,
    [beginning * (1 + CAGR / 100)^n = ending]. Over binary64 floats the
    returned rate is the rounded root, and compounding it gives the
    ending value up to rounding. *)
Theorem cagr_compounds_back :
  forall (e b : R) (n : nat),
    b <> 0 -> 0 < e / b -> (0 < n)%nat ->
    exists g,
      compound_annual_growth_rate e b (INR n) = Ok (Float g) /\
      b * (1 + g / 100) ^ n = e.
Proof.
  intros e b n Hb Hr Hn.
  assert (Hn0 : INR n <> 0) by (apply not_0_INR; lia).
  exists ((Rpower (e / b) (1 / INR n) - 1) * 100). split.
  - rewrite (cagr_guards_pass _ _ _ Hb Hn0). unfold py_pow.
    rewrite py_eq_false by lra. rewrite (py_lt_true _ _ Hr). reflexivity.
  - replace (1 + (Rpower (e / b) (1 / INR n) - 1) * 100 / 100)
      with (Rpower (e / b) (1 / INR n)) by field.
    rewrite pow_of_Rpower_root by assumption. field. exact Hb.
Qed.

Lemma cagr_compounds_back_witness :
  exists g,
    compound_annual_growth_rate 200 100 (INR 5) = Ok (Float g) /\
    100 * (1 + g / 100) ^ 5 = 200.
Proof. apply (cagr_compounds_back 200 100 5); [lra | lra | lia]. Defined.

(** ** Discounting *)

Lemma py_pow_int_nat (x : R) (i : nat) :
  x <> 0 -> py_pow_int x (Z.of_nat i) = Ok (x ^ i).
Proof.
  intros Hx. unfold py_pow_int. rewrite (py_eq_false _ _ Hx). cbn [andb].
  rewrite <- pow_powerRZ. reflexivity.
Qed.

Lemma present_value_loop_ok (cash_flows : list R) (r : R) (i : nat) (pv : R) :
  r <> -1 ->
  present_value_loop cash_flows r (Z.of_nat i) pv = Ok (pv + discounted_sum r i cash_flows).
Proof.
  intros Hr. assert (Hx : 1 + r <> 0) by lra.
  revert i pv. induction cash_flows as [| cf rest IH]; intros i pv.
  - cbn. unfold ret. f_equal. lra.
  - cbn [present_value_loop discounted_sum]. unfold present_value_cash_flow.
    rewrite (py_pow_int_nat _ i Hx). cbn [bind].
    rewrite py_div_ok by (apply pow_nonzero, Hx). cbn [bind].
    replace (Z.of_nat i + 1)%Z with (Z.of_nat (S i)) by lia.
    rewrite IH. f_equal. lra.
Qed.

Lemma discounted_sum_zero_rate (i : nat) (cash_flows : list R) :
  discounted_sum 0 i cash_flows = Sigma cash_flows.
Proof.
  unfold Sigma. revert i. induction cash_flows as [| cf rest IH]; intros i.
  - reflexivity.
  - cbn [discounted_sum fold_right]. rewrite IH.
    replace (1 + 0) with 1 by lra. rewrite pow1. lra.
Qed.

Lemma present_value_cash_flows_ok (cash_flows : list R) (r : R) :
  r <> -1 -> present_value_cash_flows cash_flows r = Ok (discounted_sum r 1 cash_flows).
Proof.
  intros Hr. unfold present_value_cash_flows.
  pose proof (present_value_loop_ok cash_flows r 1 0.0 Hr) as H.
  cbn [Z.of_nat Pos.of_succ_nat] in H. rewrite H. f_equal. lra.
Qed.

(** X15.  For a rate other than -1 [present_value_cash_flows] returns the
    sum of the flows, the [i]-th divided by [(1 + rate)^i] with [i]
    counted from 1; at the rate 0 that is the plain sum.  At the rate
    -1 every non-empty list fails with [ZeroDivisionError], as the
    function has no guard. *)
Theorem present_value_discounts :
  (forall cash_flows r, r <> -1 ->
     present_value_cash_flows cash_flows r = Ok (discounted_sum r 1 cash_flows)) /\
  (forall cash_flows, present_value_cash_flows cash_flows 0 = Ok (Sigma cash_flows)) /\
  (forall cf rest, present_value_cash_flows (cf :: rest) (-1) = Err ZeroDivisionError).
Proof.
  assert (H1 : forall cash_flows r, r <> -1 ->
     present_value_cash_flows cash_flows r = Ok (discounted_sum r 1 cash_flows)).
  { exact present_value_cash_flows_ok. }
  split; [exact H1 | split].
  - intros cash_flows. rewrite H1 by lra. rewrite discounted_sum_zero_rate. reflexivity.
  - intros cf rest. unfold present_value_cash_flows. cbn [present_value_loop].
    unfold present_value_cash_flow, py_pow_int.
    replace (1 + -1) with 0 by lra. rewrite py_eq_true by reflexivity.
    cbn [andb Z.ltb Z.compare bind ret]. rewrite powerRZ_1. rewrite py_div_zero. reflexivity.
Qed.




Lemma pv_tax_shield_loop_scaled (interest : list R) (t kd : R) (i : Z) (pv : R) :
  pv_tax_shield_loop interest t kd i (t * pv)
  = (v <- present_value_loop interest kd i pv ;; ret (t * v)).
Proof.
  revert i pv. induction interest as [| a rest IH]; intros i pv.
  - reflexivity.
  - cbn [pv_tax_shield_loop present_value_loop]. unfold present_value_cash_flow.
    destruct (py_pow_int (1 + kd) i) as [d | e]; cbn [bind]; [| reflexivity].
    unfold py_div. destruct (py_eq d 0) eqn:Hd; unfold raise, ret; cbn [bind];
      [reflexivity |].
    replace (t * pv + a * t / d) with (t * (pv + a / d)).
    + apply IH.
    + unfold py_eq in Hd. destruct (Req_dec_T d 0); [discriminate Hd |]. field. assumption.
Qed.

(** X17, in real arithmetic. [pv_tax_shield_changing] is the tax rate
    times the present value of the interest payments at the cost of
    debt, and fails exactly when that present value fails. Over binary64
    floats the tax rate is applied to each discounted payment, not to
    their sum, so the two values agree up to rounding. *)
Theorem tax_shield_is_taxed_present_value :
  forall (interest_payments : list R) (tax_rate cost_of_debt : R),
    pv_tax_shield_changing interest_payments tax_rate cost_of_debt
    = (pv <- present_value_cash_flows interest_payments cost_of_debt ;;
       ret (tax_rate * pv)).
Proof.
  intros interest t kd. unfold pv_tax_shield_changing, present_value_cash_flows.
  rewrite <- pv_tax_shield_loop_scaled. f_equal. lra.
Qed.

(** ** Betas *)

(** X18, in real arithmetic. Levering and unlevering a beta at the same
    tax rate and debt ratio are inverse to each other whenever the
    factor [1 + (1 - tax_rate) * debt_to_equity] is not zero; when it is
    zero, unlevering raises invalid-input. Over binary64 floats the
    round trip gives [b] back up to rounding; the guard is the same. *)
Theorem beta_lever_unlever :
  forall b t de : R,
    (1 + (1 - t) * de <> 0 ->
     unlevered_beta (levered_beta b t de) t de = Ok b /\
     (u <- unlevered_beta b t de ;; ret (levered_beta u t de)) = Ok b) /\
    (1 + (1 - t) * de = 0 ->
     unlevered_beta b t de = Err (ValueError "Denominator cannot be zero")).
Proof.
  intros b t de. unfold unlevered_beta, levered_beta. cbv zeta. split.
  - intros H. rewrite (py_eq_false _ _ H), !(py_div_ok _ _ H). unfold ret. cbn [bind].
    split; f_equal; field; exact H.
  - intros H. rewrite (py_eq_true _ _ H). reflexivity.
Qed.

(** ** DuPont decomposition *)

(** X19, in real arithmetic. Fed with the five component ratios computed
    by the catalogue, the five-step DuPont product telescopes to net
    income over equity, the value the detailed three-step formula
    returns, and one hundredth of [return_on_equity]; the three-step
    product of the percentage margin, the asset turnover and the equity
    multiplier is [return_on_equity] itself. Over binary64 floats the
    products agree with the direct ratios up to rounding. *)
Theorem dupont_telescopes :
  forall net_income pretax_income ebit revenue total_assets equity : R,
    pretax_income <> 0 -> ebit <> 0 -> revenue <> 0 -> total_assets <> 0 -> equity <> 0 ->
    (tb <- tax_burden net_income pretax_income ;;
     ib <- interest_burden pretax_income ebit ;;
     em <- ebit_margin ebit revenue ;;
     atv <- dupont_asset_turnover revenue total_assets ;;
     eqm <- dupont_equity_multiplier total_assets equity ;;
     ret (dupont_roe_5_step tb ib em atv eqm)) = Ok (net_income / equity) /\
    dupont_roe_3_step_detailed net_income revenue total_assets equity
    = Ok (net_income / equity) /\
    return_on_equity net_income equity = Ok (net_income / equity * 100) /\
    (npm <- net_profit_margin net_income revenue ;;
     atv <- dupont_asset_turnover revenue total_assets ;;
     eqm <- dupont_equity_multiplier total_assets equity ;;
     ret (dupont_roe_3_step npm atv eqm)) = Ok (net_income / equity * 100).
Proof.
  intros ni pti ebit rev ta eq Hp He Hr Ht Hq.
  unfold tax_burden, interest_burden, ebit_margin, dupont_asset_turnover,
    dupont_equity_multiplier, dupont_roe_5_step, dupont_roe_3_step_detailed, return_on_equity,
    net_profit_margin, dupont_roe_3_step.
  rewrite (py_eq_false _ _ Hp), (py_eq_false _ _ He), (py_eq_false _ _ Hr),
    (py_eq_false _ _ Ht), (py_eq_false _ _ Hq).
  rewrite !py_div_ok by assumption. unfold ret. cbn [bind orb].
  repeat split; f_equal; field; repeat split; assumption.
Qed.

Lemma dupont_telescopes_witness :
  (tb <- tax_burden 6 8 ;;
   ib <- interest_burden 8 10 ;;
   em <- ebit_margin 10 50 ;;
   atv <- dupont_asset_turnover 50 100 ;;
   eqm <- dupont_equity_multiplier 100 40 ;;
   ret (dupont_roe_5_step tb ib em atv eqm)) = Ok (6 / 40) /\
  dupont_roe_3_step_detailed 6 50 100 40 = Ok (6 / 40) /\
  return_on_equity 6 40 = Ok (6 / 40 * 100) /\
  (npm <- net_profit_margin 6 50 ;;
   atv <- dupont_asset_turnover 50 100 ;;
   eqm <- dupont_equity_multiplier 100 40 ;;
   ret (dupont_roe_3_step npm atv eqm)) = Ok (6 / 40 * 100).
Proof. apply (dupont_telescopes 6 8 10 50 100 40); lra. Defined.

(** ** Stable-growth prices *)

(** X20, in real arithmetic. The Gordon price of next year's dividend, a
    payout share of earnings grown once, is the justified P/E times
    earnings per share; both formulas fail together, with the same
    message. When the return on equity equals the cost of equity the
    justified P/B is 1. The first part is exact in real arithmetic only
    (over binary64 floats the two prices agree up to rounding). *)
Theorem gordon_price_is_justified_pe :
  (forall payout eps g re : R,
     gordon_growth_model (dividend_next_year (payout * eps) g) re g
     = (pe <- justified_pe_stable_growth payout g re ;; ret (pe * eps))) /\
  (forall g re : R, g < re -> justified_pb_ratio re g re = Ok 1).
Proof.
  split.
  - intros payout eps g re.
    unfold gordon_growth_model, justified_pe_stable_growth, dividend_next_year.
    destruct (Rle_lt_dec re g) as [H | H].
    + rewrite (py_le_true _ _ H). reflexivity.
    + rewrite (py_le_false _ _ H), !py_div_ok by lra. unfold ret. cbn [bind].
      f_equal. field. lra.
  - intros g re H. unfold justified_pb_ratio.
    rewrite (py_le_false _ _ H), py_div_ok by lra. f_equal. field. lra.
Qed.

(** ** Scores *)

(** X21, in real arithmetic. Both Altman scores depend on the ratios of
    their arguments only: multiplying all seven by one non-zero factor
    (a change of currency unit) changes nothing, failures included.
    Over binary64 floats the scaled ratios, and so the scores, agree up
    to rounding. *)
Theorem altman_unit_free :
  forall k wc ta re ebit eq liab sales : R,
    k <> 0 ->
    altman_z_score (k * wc) (k * ta) (k * re) (k * ebit) (k * eq) (k * liab) (k * sales)
    = altman_z_score wc ta re ebit eq liab sales /\
    altman_z_score_private (k * wc) (k * ta) (k * re) (k * ebit) (k * eq) (k * liab)
                           (k * sales)
    = altman_z_score_private wc ta re ebit eq liab sales.
Proof.
  intros k wc ta re ebit eq liab sales Hk.
  assert (Hdiv : forall a b, py_div (k * a) (k * b) = py_div a b).
  { intros a b. destruct (Req_dec_T b 0) as [-> | Hb].
    - rewrite Rmult_0_r, !py_div_zero. reflexivity.
    - rewrite !py_div_ok by (try apply Rmult_integral_contrapositive_currified; assumption).
      f_equal. field. split; assumption. }
  unfold altman_z_score, altman_z_score_private. rewrite !Hdiv. split; reflexivity.
Qed.

Lemma altman_unit_free_witness :
  altman_z_score (1000 * 30) (1000 * 200) (1000 * 50) (1000 * 40) (1000 * 300)
                 (1000 * 100) (1000 * 250)
  = altman_z_score 30 200 50 40 300 100 250 /\
  altman_z_score_private (1000 * 30) (1000 * 200) (1000 * 50) (1000 * 40) (1000 * 300)
                         (1000 * 100) (1000 * 250)
  = altman_z_score_private 30 200 50 40 300 100 250.
Proof. apply (altman_unit_free 1000 30 200 50 40 300 100 250). lra. Defined.

(** X22.  [probability_of_bankruptcy] never fails and returns a value
    strictly between 0 and 1; it is one half at an O-score of 0, rises
    with the O-score, and the values at [o] and [-o] add up to 1. *)
Theorem probability_of_bankruptcy_is_a_probability :
  forall o : R,
    exists p,
      probability_of_bankruptcy o = Ok p /\ 0 < p < 1 /\
      probability_of_bankruptcy (- o) = Ok (1 - p) /\
      (o = 0 -> p = 1 / 2) /\
      (forall o' p', o < o' -> probability_of_bankruptcy o' = Ok p' -> p < p').
Proof.
  intros o.
  assert (Hok : forall x, probability_of_bankruptcy x = Ok (1 / (1 + exp (- x)))).
  { intros x. unfold probability_of_bankruptcy. apply py_div_ok.
    pose proof (exp_pos (- x)). lra. }
  exists (1 / (1 + exp (- o))). pose proof (exp_pos (- o)) as He.
  split; [apply Hok |]. split; [| split; [| split]].
  - split.
    + apply Rdiv_lt_0_compat; lra.
    + apply Rmult_lt_reg_r with (1 + exp (- o)); [lra |].
      replace (1 / (1 + exp (- o)) * (1 + exp (- o))) with 1 by (field; lra). lra.
  - rewrite Hok. f_equal. rewrite Ropp_involutive.
    pose proof (exp_pos o) as He'.
    assert (Hinv : exp (- o) = / exp o) by apply exp_Ropp.
    rewrite Hinv. field. split; [lra |]. intros H0.
    assert (exp o * (1 + / exp o) = exp o + 1) by (field; lra). nra.
  - intros ->. rewrite Ropp_0, exp_0. lra.
  - intros o' p' Hlt Hp'. rewrite Hok in Hp'. injection Hp' as <-.
    pose proof (exp_pos (- o')) as He'.
    assert (Hexp : exp (- o') < exp (- o)) by (apply exp_increasing; lra).
    unfold Rdiv. rewrite !Rmult_1_l. apply Rinv_lt_contravar; [nra | lra].
Qed.

(** ** Graham's rules *)

Lemma py_le_iff (a b : R) : py_le a b = true <-> a <= b.
Proof. unfold py_le. destruct (Rle_dec a b); split; intros H; try discriminate; tauto. Qed.

Lemma py_lt_iff (a b : R) : py_lt a b = true <-> a < b.
Proof. unfold py_lt. destruct (Rlt_dec a b); split; intros H; try discriminate; tauto. Qed.

(** X23, in real arithmetic. For a positive intrinsic value Graham's two
    margin-of-safety rules say what [margin_of_safety] says: the 50 %
    rule holds exactly when the margin is at least 50, the 33 % rule
    exactly when it is at least 33. Over binary64 floats the margin is
    rounded, and a price exactly on a threshold can fall on different
    sides of the two tests. *)
Theorem graham_rules_match_margin_of_safety :
  forall price iv : R,
    0 < iv ->
    exists m,
      margin_of_safety iv price = Ok m /\
      (graham_minimum_mos_50 price iv = true <-> 50 <= m) /\
      (graham_minimum_mos_33 price iv = true <-> 33 <= m).
Proof.
  intros price iv Hiv. exists ((iv - price) / iv * 100).
  assert (Hm : (iv - price) / iv * 100 = 100 - 100 * price / iv) by (field; lra).
  assert (Hq : forall c, c <= 100 - 100 * price / iv <-> price <= (100 - c) / 100 * iv).
  { intros c. split; intros H.
    - apply Rmult_le_reg_r with (/ iv); [apply Rinv_0_lt_compat, Hiv |].
      replace ((100 - c) / 100 * iv * / iv) with ((100 - c) / 100) by (field; lra).
      unfold Rdiv in H. lra.
    - assert (H' : price * / iv <= (100 - c) / 100 * iv * / iv)
        by (apply Rmult_le_compat_r; [left; apply Rinv_0_lt_compat, Hiv | exact H]).
      replace ((100 - c) / 100 * iv * / iv) with ((100 - c) / 100) in H' by (field; lra).
      unfold Rdiv. lra. }
  split; [| split].
  - unfold margin_of_safety. rewrite py_eq_false, py_div_ok by lra. reflexivity.
  - unfold graham_minimum_mos_50. rewrite py_le_iff, Hm, Hq.
    replace ((100 - 50) / 100 * iv) with (0.50 * iv) by lra. reflexivity.
  - unfold graham_minimum_mos_33. rewrite py_le_iff, Hm, Hq.
    replace ((100 - 33) / 100 * iv) with (0.67 * iv) by lra. reflexivity.
Qed.

Lemma graham_rules_match_margin_of_safety_witness :
  exists m,
    margin_of_safety 100 40 = Ok m /\
    (graham_minimum_mos_50 40 100 = true <-> 50 <= m) /\
    (graham_minimum_mos_33 40 100 = true <-> 33 <= m).
Proof. apply (graham_rules_match_margin_of_safety 40 100). lra. Defined.

(** X24.  On non-negative values the conservative rule is the stricter
    one: whatever passes the 50 % margin rule passes the 33 % rule, and
    whatever passes the conservative NCAV rule passes the two-thirds
    rule.  For a negative NCAV this fails. *)
Theorem graham_conservative_rules_are_stricter :
  (forall price iv, 0 <= iv ->
     graham_minimum_mos_50 price iv = true -> graham_minimum_mos_33 price iv = true) /\
  (forall price ncav, 0 <= ncav ->
     graham_ncav_buy_rule_conservative price ncav = true ->
     graham_ncav_buy_rule price ncav = true) /\
  (graham_ncav_buy_rule_conservative (-0.6) (-1) = true /\
   graham_ncav_buy_rule (-0.6) (-1) = false).
Proof.
  split; [| split; [| split]].
  - intros price iv Hiv. unfold graham_minimum_mos_50, graham_minimum_mos_33.
    rewrite !py_le_iff. lra.
  - intros price ncav Hn. unfold graham_ncav_buy_rule_conservative, graham_ncav_buy_rule.
    rewrite !py_lt_iff. lra.
  - unfold graham_ncav_buy_rule_conservative. apply py_lt_true. lra.
  - unfold graham_ncav_buy_rule. apply py_lt_false. lra.
Qed.

(** X25, in real arithmetic. For positive price, earnings and book value
    per share, a price at or below the Graham number is the same as a
    product of P/E and P/B of at most 22.5. Over binary64 floats the
    square root and the product are rounded, and a price exactly at the
    Graham number can fall on different sides of the two tests. *)
Theorem graham_number_criterion :
  forall price eps bvps : R,
    0 < price -> 0 < eps -> 0 < bvps ->
    exists g pe pb,
      graham_number eps bvps = Ok g /\
      price_to_earnings_ratio price eps = Ok pe /\
      price_to_book_ratio price bvps = Ok pb /\
      (price <= g <-> pe * pb <= 22.5).
Proof.
  intros price eps bvps Hp He Hb.
  assert (Hprod : 0 < eps * bvps) by (apply Rmult_lt_0_compat; assumption).
  exists (sqrt (22.5 * eps * bvps)), (price / eps), (price / bvps).
  split; [| split; [| split]].
  - unfold graham_number. apply math_sqrt_ok. nra.
  - unfold price_to_earnings_ratio. rewrite py_eq_false, py_div_ok by lra. reflexivity.
  - unfold price_to_book_ratio. rewrite py_eq_false, py_div_ok by lra. reflexivity.
  - assert (Hsq : sqrt (22.5 * eps * bvps) * sqrt (22.5 * eps * bvps) = 22.5 * eps * bvps)
      by (apply sqrt_sqrt; nra).
    pose proof (sqrt_pos (22.5 * eps * bvps)) as Hs.
    assert (Hpp : price / eps * (price / bvps) = price * price / (eps * bvps))
      by (field; split; lra).
    rewrite Hpp. split; intros H.
    + apply Rmult_le_reg_r with (eps * bvps); [exact Hprod |].
      replace (price * price / (eps * bvps) * (eps * bvps)) with (price * price)
        by (field; split; lra).
      nra.
    + assert (H' : price * price / (eps * bvps) * (eps * bvps) <= 22.5 * (eps * bvps))
        by (apply Rmult_le_compat_r; [lra | exact H]).
      replace (price * price / (eps * bvps) * (eps * bvps)) with (price * price) in H'
        by (field; split; lra).
      apply Rnot_lt_le. intros Hlt. nra.
Qed.

Lemma graham_number_criterion_witness :
  exists g pe pb,
    graham_number 2 5 = Ok g /\
    price_to_earnings_ratio 15 2 = Ok pe /\
    price_to_book_ratio 15 5 = Ok pb /\
    (15 <= g <-> pe * pb <= 22.5).
Proof. apply (graham_number_criterion 15 2 5); lra. Defined.

(** ** Further properties of the unit conversion *)

Lemma dict_get_missing (d : list (string * Z)) (key : string) :
  ~ In key (map fst d) -> dict_get d key = Err (KeyError key).
Proof.
  induction d as [| [k v] d IH]; intros Hnot; cbn [dict_get].
  - reflexivity.
  - destruct (String.eqb k key) eqn:Hk.
    + apply String.eqb_eq in Hk. exfalso. apply Hnot. left. exact Hk.
    + apply IH. intros Hin. apply Hnot. right. exact Hin.
Qed.

Lemma dict_get_factor (u : string) :
  In u magnitude_units ->
  exists f, dict_get CONVERSION_FACTORS u = Ok f /\ IZR f <> 0.
Proof.
  intros Hu. unfold magnitude_units in Hu. cbn [map fst CONVERSION_FACTORS] in Hu.
  unit_cases; eexists; (split; [reflexivity | apply IZR_factor_nonzero; lia]).
Qed.

Lemma convert_units_value (x : R) (u v : string) (fu fv : Z) :
  dict_get CONVERSION_FACTORS u = Ok fu -> dict_get CONVERSION_FACTORS v = Ok fv ->
  IZR fu <> 0 -> IZR fv <> 0 ->
  convert_units x u v = Ok (x * IZR fu / IZR fv).
Proof.
  intros Hu Hv Hfu Hfv. unfold convert_units.
  destruct (String.eqb u v) eqn:Huv.
  - apply String.eqb_eq in Huv. subst v. rewrite Hu in Hv. injection Hv as <-.
    unfold ret. f_equal. field. exact Hfu.
  - rewrite Hu, Hv. cbn [bind]. apply py_div_ok, Hfv.
Qed.

(** X26.  What [convert_units] does off the table: equal units return
    the value untouched, whether the unit is known or not; with
    different units the first unknown one, source before target, is
    reported by a [KeyError]. *)
Theorem convert_units_unknown_units :
  (forall x u, convert_units x u u = Ok x) /\
  (forall x u v, u <> v -> ~ In u magnitude_units ->
     convert_units x u v = Err (KeyError u)) /\
  (forall x u v, u <> v -> In u magnitude_units -> ~ In v magnitude_units ->
     convert_units x u v = Err (KeyError v)).
Proof.
  split; [| split].
  - intros x u. unfold convert_units. rewrite String.eqb_refl. reflexivity.
  - intros x u v Huv Hu. unfold convert_units.
    rewrite (proj2 (String.eqb_neq u v) Huv).
    rewrite (dict_get_missing _ _ Hu). reflexivity.
  - intros x u v Huv Hu Hv. unfold convert_units.
    rewrite (proj2 (String.eqb_neq u v) Huv).
    destruct (dict_get_factor u Hu) as (f & Hf & _). rewrite Hf. cbn [bind].
    rewrite (dict_get_missing _ _ Hv). reflexivity.
Qed.

(** X27.  Conversions chain: going from [u] to [w] through any unit [v]
    of the table gives what the direct conversion gives. *)
Theorem convert_units_chain :
  forall (x : R) (u v w : string),
    In u magnitude_units -> In v magnitude_units -> In w magnitude_units ->
    (y <- convert_units x u v ;; convert_units y v w) = convert_units x u w.
Proof.
  intros x u v w Hu Hv Hw.
  destruct (dict_get_factor u Hu) as (fu & Hfu & Hu0).
  destruct (dict_get_factor v Hv) as (fv & Hfv & Hv0).
  destruct (dict_get_factor w Hw) as (fw & Hfw & Hw0).
  rewrite (convert_units_value x u v fu fv), (convert_units_value x u w fu fw) by assumption.
  cbn [bind]. rewrite (convert_units_value _ v w fv fw) by assumption.
  f_equal. field. split; assumption.
Qed.

Lemma convert_units_chain_witness :
  (y <- convert_units 3 "cr" "lakhs" ;; convert_units y "lakhs" "million")
  = convert_units 3 "cr" "million".
Proof.
  apply (convert_units_chain 3 "cr" "lakhs" "million");
    unfold magnitude_units; cbn; tauto.
Defined.




(** ** Day counts and reciprocal ratios *)

(** X29, in real arithmetic. The two routes to each day count agree:
    computed from the balance and the flow, or as 365 over the matching
    turnover ratio, the days of sales, inventory and payables
    outstanding are the same whenever neither quantity is zero. Over
    binary64 floats the two routes agree up to rounding. *)
Theorem day_counts_agree :
  (forall receivable sales, receivable <> 0 -> sales <> 0 ->
     (turnover <- receivables_turnover_ratio sales receivable ;;
      days_sales_outstanding_alt turnover)
     = days_sales_outstanding receivable sales) /\
  (forall inventory cogs, inventory <> 0 -> cogs <> 0 ->
     (turnover <- inventory_turnover_ratio cogs inventory ;;
      days_inventory_outstanding_alt turnover)
     = days_inventory_outstanding inventory cogs) /\
  (forall payable cogs, payable <> 0 -> cogs <> 0 ->
     (turnover <- payables_turnover_ratio cogs payable ;;
      days_payable_outstanding_alt turnover)
     = days_payable_outstanding payable cogs).
Proof.
  assert (Hq : forall a b, a <> 0 -> b <> 0 -> a / b <> 0).
  { intros a b Ha Hb. unfold Rdiv. apply Rmult_integral_contrapositive_currified;
      [exact Ha | apply Rinv_neq_0_compat, Hb]. }
  repeat split; intros a b Ha Hb;
    unfold receivables_turnover_ratio, days_sales_outstanding_alt, days_sales_outstanding,
      inventory_turnover_ratio, days_inventory_outstanding_alt, days_inventory_outstanding,
      payables_turnover_ratio, days_payable_outstanding_alt, days_payable_outstanding;
    rewrite (py_eq_false _ _ Ha), (py_eq_false _ _ Hb), !py_div_ok by assumption;
    cbn [bind]; rewrite (py_eq_false _ _ (Hq _ _ Hb Ha)), py_div_ok by (apply Hq; assumption);
    unfold ret; f_equal; field; split; assumption.
Qed.

(** ** Black-Scholes *)

Section PutCallParity.

Variable SCIPY_AVAILABLE : bool.
Variable math_erf : R -> R.
Variable stats_norm_cdf : R -> R.

Hypothesis math_erf_odd : forall y, math_erf (- y) = - math_erf y.
Hypothesis stats_norm_cdf_symmetric : forall x, stats_norm_cdf (- x) = 1 - stats_norm_cdf x.

Lemma norm_cdf_symmetric (x : R) :
  _norm_cdf SCIPY_AVAILABLE math_erf stats_norm_cdf (- x)
  = (n <- _norm_cdf SCIPY_AVAILABLE math_erf stats_norm_cdf x ;; ret (1 - n)).
Proof.
  unfold _norm_cdf. destruct SCIPY_AVAILABLE; cbn [negb].
  - unfold ret. cbn [bind]. rewrite stats_norm_cdf_symmetric. reflexivity.
  - assert (H2 : 0 < sqrt 2) by (apply sqrt_lt_R0; lra).
    rewrite math_sqrt_ok by lra. cbn [bind].
    rewrite !py_div_ok by lra. unfold ret. cbn [bind].
    replace (- x / sqrt 2) with (- (x / sqrt 2)) by (field; lra).
    rewrite math_erf_odd. f_equal. lra.
Qed.

(** X30.  Put-call parity, in real arithmetic.  With a normal
    distribution function that is symmetric about zero, the put value
    is the call value minus the spot price plus the discounted strike,
    [P = C - S0 + K e^(-rT)], and the two functions fail on the same
    inputs.  Over binary64 floats the two sides agree up to rounding. *)
Theorem black_scholes_put_call_parity :
  forall s0 k r t sigma : R,
    black_scholes_put SCIPY_AVAILABLE math_erf stats_norm_cdf s0 k r t sigma
    = (c <- black_scholes_call SCIPY_AVAILABLE math_erf stats_norm_cdf s0 k r t sigma ;;
       ret (c - s0 + k * exp (- r * t))).
Proof.
  intros s0 k r t sigma. unfold black_scholes_put, black_scholes_call.
  destruct (py_div s0 k) as [q | e]; cbn [bind]; [| reflexivity].
  destruct (math_log q) as [l | e]; cbn [bind]; [| reflexivity].
  destruct (math_sqrt t) as [st | e]; cbn [bind]; [| reflexivity].
  destruct (py_div (l + (r + py_sq sigma / 2) * t) (sigma * st)) as [d1 | e];
    cbn [bind]; [| reflexivity].
  cbv zeta. rewrite !norm_cdf_symmetric.
  destruct (_norm_cdf SCIPY_AVAILABLE math_erf stats_norm_cdf d1) as [n1 | e];
    cbn [bind]; [| reflexivity].
  destruct (_norm_cdf SCIPY_AVAILABLE math_erf stats_norm_cdf (d1 - sigma * st)) as [n2 | e];
    cbn [bind]; [| reflexivity].
  unfold ret. cbn [bind]. f_equal. lra.
Qed.

End PutCallParity.

Lemma black_scholes_put_call_parity_witness :
  black_scholes_put false (fun y => y / (1 + Rabs y))
    (fun x => 1 / 2 * (1 + x / (1 + Rabs x))) 100 100 0.05 1 0.2
  = (c <- black_scholes_call false (fun y => y / (1 + Rabs y))
            (fun x => 1 / 2 * (1 + x / (1 + Rabs x))) 100 100 0.05 1 0.2 ;;
     ret (c - 100 + 100 * exp (- (0.05) * 1))).
Proof.
  apply (black_scholes_put_call_parity false (fun y => y / (1 + Rabs y))
           (fun x => 1 / 2 * (1 + x / (1 + Rabs x)))).
  - intros y. rewrite Rabs_Ropp. pose proof (Rabs_pos y). field. lra.
  - intros x. rewrite Rabs_Ropp. pose proof (Rabs_pos x). field. lra.
Defined.
